(** * Juno backend: response envelopes and the async controller wrapper

    A shallow embedding of

      - [src/utils/api-error.ts]      (class [ApiError], interface [ErrorDetail]),
      - the module imported as [@/utils/api-response]
                                      (class [ApiResponse], interface [ResponseMetadata]),
      - [src/utils/async-handler.ts]  ([asyncHandler], type [AsyncController]),
      - [src/controllers/healthcheck.controllers.ts] ([healthCheck]),
      - [src/app.ts]                  (the [origin] option of the CORS set-up),

    followed by the properties of these definitions.

    Conventions of the embedding.

      - A TypeScript [number] is a [JS.number]: [NaN], an infinity, or the
        rational a finite double denotes, with the comparisons of
        JavaScript ([NaN] compares false with everything).  An integer
        literal of the sources is written as an integer of [Z].
      - An optional parameter or field ([x?: T], or a parameter with a
        default) is an [option]: [None] is JavaScript's [undefined].
      - Every function and method is a computation of the monad [JS]: it
        reads the [World] (the clock behind [new Date()], the call stack
        behind [Error.captureStackTrace]), appends to a log of observable
        events, may leave promise reactions for the event loop, and either
        returns a value or throws.
      - The object a [toJSON] method returns is the ordered list of its
        own properties, in insertion order. *)

From Stdlib Require Import ZArith List String Bool Lia Permutation DecimalString.
From Stdlib Require Import Ascii QArith.
From ExtLib Require Import Structures.Monad.
Import ListNotations.
Import MonadNotation.

Local Open Scope string_scope.
Local Open Scope Z_scope.
Local Open Scope list_scope.
Local Open Scope monad_scope.

Set Implicit Arguments.

(* ===================================================================== *)
(** ** The JavaScript run-time the sources rely on *)
(* ===================================================================== *)

Module JS.

(** A [number]: an IEEE double, read as the rational it denotes, or one of
    the three values that denote none.  Every double is one of these; the
    two zeros are not told apart (no comparison does, and both print as
    [0]). *)
Inductive number : Type :=
| NaN
| Infinity
| NegInfinity
| Finite (q : Q).

(** An integer literal. *)
Definition of_Z (z : Z) : number := Finite (inject_Z z).
Coercion of_Z : Z >-> number.

(** [x < y]: false when either side is [NaN]. *)
Definition Number_lt (x y : number) : bool :=
  match x, y with
  | NaN, _ => false
  | _, NaN => false
  | _, NegInfinity => false
  | Infinity, _ => false
  | NegInfinity, _ => true
  | Finite _, Infinity => true
  | Finite a, Finite b => negb (Qle_bool b a)
  end.

(** [x > y] is [y < x]. *)
Definition Number_gt (x y : number) : bool := Number_lt y x.

(** [x >= y]: false when either side is [NaN], otherwise the negation of
    [x < y]. *)
Definition Number_ge (x y : number) : bool :=
  match x, y with
  | NaN, _ => false
  | _, NaN => false
  | _, _ => negb (Number_lt x y)
  end.

(** What a run takes from its surroundings. *)
Record World := mkWorld {
  now : string;         (* new Date().toISOString() *)
  stackTrace : string;  (* the trace Error.captureStackTrace records *)
  shortest_digits : Q -> string;
    (* the engine's Number::toString on a finite number that is not a safe
       integer: its shortest round-trip digits, in positional or exponent
       form *)
}.

(** A call either returns or throws. *)
Inductive Completion (E A : Type) : Type :=
| Returned (a : A)
| Thrown (e : E).
Arguments Returned {E A} a.
Arguments Thrown {E A} e.

(** The result of running a computation: the events of its synchronous
    part, the events of the promise reactions it left behind (run by the
    event loop once the synchronous part is over), and its completion. *)
Record Outcome (Ev E A : Type) : Type := mkOutcome {
  log : list Ev;
  floating : list Ev;
  result : Completion E A;
}.
Arguments mkOutcome {Ev E A} log floating result.

Definition t (Ev E A : Type) : Type := World -> Outcome Ev E A.

Section Operations.
Context {Ev E : Type}.

Definition ret_ {A} (a : A) : t Ev E A :=
  fun _ => mkOutcome [] [] (Returned a).

Definition bind_ {A B} (m : t Ev E A) (k : A -> t Ev E B) : t Ev E B :=
  fun w =>
    let o := m w in
    match result o with
    | Returned a =>
        let o' := k a w in
        mkOutcome (log o ++ log o') (floating o ++ floating o') (result o')
    | Thrown e => mkOutcome (log o) (floating o) (Thrown e)
    end.

(** [throw e] *)
Definition throw {A} (e : E) : t Ev E A :=
  fun _ => mkOutcome [] [] (Thrown e).

(** An observable effect of the synchronous part. *)
Definition emit (ev : Ev) : t Ev E unit :=
  fun _ => mkOutcome [ev] [] (Returned tt).

(** Reading the world. *)
Definition ask : t Ev E World :=
  fun w => mkOutcome [] [] (Returned w).

(** Everything a run makes observable, in order of occurrence. *)
Definition trace {A} (o : Outcome Ev E A) : list Ev :=
  log o ++ floating o.

End Operations.

#[global] Instance Monad_JS {Ev E} : Monad (t Ev E) :=
  {| ret := @ret_ Ev E; bind := @bind_ Ev E |}.

(** Is the rational an integer of magnitude at most 2^53? *)
Definition is_safe_integer (q : Q) : bool :=
  (Pos.eqb (Qden (Qred q)) 1 && (Z.abs (Qnum (Qred q)) <=? 2 ^ 53)%Z)%bool.

(** [`${n}`]: [NaN], [Infinity], [-Infinity]; the decimal digits of a safe
    integer; for every other finite number the digits the engine
    chooses. *)
Definition Number_toString (w : World) (n : number) : string :=
  match n with
  | NaN => "NaN"
  | Infinity => "Infinity"
  | NegInfinity => "-Infinity"
  | Finite q =>
      if is_safe_integer q
      then NilZero.string_of_int (Z.to_int (Qnum (Qred q)))
      else shortest_digits w q
  end.

(** Truthiness of a string: the empty string is falsy. *)
Definition truthy_string (s : string) : bool :=
  negb (String.eqb s "").

(** A parameter default: [x = d] in a parameter list. *)
Definition or_default {A} (x : option A) (d : A) : A :=
  match x with Some v => v | None => d end.

(** The type [null]. *)
Inductive Null : Type := null.

End JS.

Import JS.

(* ===================================================================== *)
(** ** Wire objects *)
(* ===================================================================== *)

(** [interface ErrorDetail] *)
Module ErrorDetail.
Record t := mk {
  field : option string;
  message : string;
  code : option string;
}.
End ErrorDetail.

(** [interface ResponseMetadata] *)
Module ResponseMetadata.
Record t := mk {
  total : option Z;
  page : option Z;
  limit : option Z;
  totalPages : option Z;
  hasNext : option bool;
  hasPrevious : option bool;
}.
End ResponseMetadata.

(** The value of a property of the object a [toJSON] method builds.  The
    payload type [T] is the type parameter of [ApiResponse<T>]. *)
Inductive PropertyValue (T : Type) : Type :=
| PBool (b : bool)
| PNumber (n : number)
| PString (s : string)
| PNull
| PData (d : T)
| PMetadata (m : ResponseMetadata.t)
| PErrors (l : list ErrorDetail.t).
Arguments PBool {T} b.
Arguments PNumber {T} n.
Arguments PString {T} s.
Arguments PNull {T}.
Arguments PData {T} d.
Arguments PMetadata {T} m.
Arguments PErrors {T} l.

(** An object literal: its own properties in insertion order. *)
Definition WireObject (T : Type) : Type := list (string * PropertyValue T).

Definition keys {T} (o : WireObject T) : list string := map fst o.

Fixpoint get {T} (k : string) (o : WireObject T) : option (PropertyValue T) :=
  match o with
  | [] => None
  | (k', v) :: rest => if String.eqb k k' then Some v else get k rest
  end.

(** [...(x && { k: x })] inside an object literal: when [x] is [undefined]
    or falsy the spread adds no property, otherwise it adds [k]. *)
Definition spread_if {A T} (truthy : A -> bool) (x : option A)
    (k : string) (inj : A -> PropertyValue T) : WireObject T :=
  match x with
  | Some v => if truthy v then [(k, inj v)] else []
  | None => []
  end.

(* ===================================================================== *)
(** ** [class ApiError extends Error] *)
(* ===================================================================== *)

Module ApiError.

Record t : Type := mk {
  statusCode : number;
  data : Null;                     (* readonly data: null = null *)
  message : string;
  success : bool;                  (* readonly success: false = false *)
  errors : list ErrorDetail.t;
  code : option string;
  timestamp : string;
  correlationId : option string;   (* the one field not readonly *)
  name : string;
  stack : string;
}.

(** What a [throw] can carry in these sources. *)
Inductive Exception : Type :=
| Error (message : string)         (* new Error(message) *)
| Instance (e : t).                (* an ApiError instance *)

Section Methods.
Context {Ev : Type}.
Let M := JS.t Ev Exception.

(** [constructor(statusCode, message = 'Something went wrong',
                 errors = [], stack?, code?)] *)
Definition constructor (statusCode : number) (message : option string)
    (errors : option (list ErrorDetail.t)) (stack : option string)
    (code : option string) : M t :=
  let message := or_default message "Something went wrong" in
  let errors := or_default errors [] in
  if Number_lt statusCode 400 || Number_gt statusCode 599 then
    w <- ask ;;
    throw (Error ("Invalid status code: " ++ Number_toString w statusCode
                    ++ ". Must be between 400-599")%string)
  else
    w <- ask ;;
    ret {| ApiError.statusCode := statusCode;
           ApiError.data := null;
           ApiError.message := message;
           ApiError.success := false;
           ApiError.errors := errors;
           ApiError.code := code;
           ApiError.timestamp := now w;
           ApiError.correlationId := None;
           ApiError.name := "ApiError";
           ApiError.stack :=
             match stack with
             | Some s => if truthy_string s then s else stackTrace w
             | None => stackTrace w
             end |}.

(** [toJSON()] *)
Definition toJSON {T} (this : t) : M (WireObject T) :=
  ret ([ ("success", PBool (success this));
         ("statusCode", PNumber (statusCode this));
         ("message", PString (message this));
         ("data", match data this with null => PNull end);
         ("errors", PErrors (errors this)) ]
       ++ spread_if truthy_string (code this) "code" PString
       ++ [ ("timestamp", PString (timestamp this)) ]
       ++ spread_if truthy_string (correlationId this) "correlationId" PString).

(** [static badRequest(message = 'Bad Request', errors = [])] *)
Definition badRequest (message : option string)
    (errors : option (list ErrorDetail.t)) : M t :=
  constructor 400 (Some (or_default message "Bad Request"))
              (Some (or_default errors [])) None (Some "BAD_REQUEST").

(** [static unauthorized(message = 'Unauthorized access')] *)
Definition unauthorized (message : option string) : M t :=
  constructor 401 (Some (or_default message "Unauthorized access"))
              (Some []) None (Some "UNAUTHORIZED").

(** [static forbidden(message = 'Access forbidden')] *)
Definition forbidden (message : option string) : M t :=
  constructor 403 (Some (or_default message "Access forbidden"))
              (Some []) None (Some "FORBIDDEN").

(** [static notFound(resource = 'Resource')] *)
Definition notFound (resource : option string) : M t :=
  constructor 404 (Some (or_default resource "Resource" ++ " not found")%string)
              (Some []) None (Some "NOT_FOUND").

(** [static conflict(message = 'Resource conflict')] *)
Definition conflict (message : option string) : M t :=
  constructor 409 (Some (or_default message "Resource conflict"))
              (Some []) None (Some "CONFLICT").

(** [static validation(message = 'Validation failed', errors = [])] *)
Definition validation (message : option string)
    (errors : option (list ErrorDetail.t)) : M t :=
  constructor 422 (Some (or_default message "Validation failed"))
              (Some (or_default errors [])) None (Some "VALIDATION_ERROR").

(** [static internal(message = 'Internal server error')] *)
Definition internal (message : option string) : M t :=
  constructor 500 (Some (or_default message "Internal server error"))
              (Some []) None (Some "INTERNAL_ERROR").

End Methods.

(** [e.correlationId = v]: the assignment the class leaves open; every
    other declared field is [readonly]. *)
Definition set_correlationId (v : option string) (e : t) : t :=
  {| statusCode := statusCode e;
     data := data e;
     message := message e;
     success := success e;
     errors := errors e;
     code := code e;
     timestamp := timestamp e;
     correlationId := v;
     name := name e;
     stack := stack e |}.

End ApiError.

(* ===================================================================== *)
(** ** The field declarations of [ApiError] *)
(* ===================================================================== *)







(* ===================================================================== *)
(** ** [class ApiResponse<T = any>] *)
(* ===================================================================== *)

Module ApiResponse.

Record t (T : Type) : Type := mk {
  success : bool;                  (* readonly success: true = true *)
  statusCode : number;
  data : T;
  message : string;
  metadata : option ResponseMetadata.t;
  timestamp : string;
}.

Section Methods.
Context {Ev : Type}.
Let M := JS.t Ev ApiError.Exception.

(** [constructor(statusCode, data, message = 'Success', metadata?)] *)
Definition constructor {T} (statusCode : number) (data : T)
    (message : option string) (metadata : option ResponseMetadata.t)
    : M (t T) :=
  let message := or_default message "Success" in
  if Number_lt statusCode 200 || Number_ge statusCode 400 then
    w <- ask ;;
    throw (ApiError.Error
             ("Invalid success status code: " ++ Number_toString w statusCode
                ++ ". Must be between 200-399")%string)
  else
    w <- ask ;;
    ret {| success := true;
           statusCode := statusCode;
           data := data;
           message := message;
           metadata := metadata;
           timestamp := now w |}.

(** [toJSON()]; an object is truthy, so [metadata] is spread whenever
    it is defined. *)
Definition toJSON {T} (this : t T) : M (WireObject T) :=
  ret ([ ("success", PBool (success this));
         ("statusCode", PNumber (statusCode this));
         ("message", PString (message this));
         ("data", PData (data this)) ]
       ++ spread_if (fun _ => true) (metadata this) "metadata" PMetadata
       ++ [ ("timestamp", PString (timestamp this)) ]).

(** [static ok<T>(data, message = 'Success')] *)
Definition ok {T} (data : T) (message : option string) : M (t T) :=
  constructor 200 data (Some (or_default message "Success")) None.

(** [static created<T>(data, message = 'Resource created successfully')] *)
Definition created {T} (data : T) (message : option string) : M (t T) :=
  constructor 201 data
              (Some (or_default message "Resource created successfully")) None.

(** [static noContent(message = 'Operation completed successfully')] *)
Definition noContent (message : option string) : M (t Null) :=
  constructor 204 null
              (Some (or_default message "Operation completed successfully")) None.

(** [static paginated<T>(data: T[], metadata,
                         message = 'Data retrieved successfully')] *)
Definition paginated {T} (data : list T) (metadata : ResponseMetadata.t)
    (message : option string) : M (t (list T)) :=
  constructor 200 data
              (Some (or_default message "Data retrieved successfully"))
              (Some metadata).

End Methods.

End ApiResponse.

(* ===================================================================== *)
(** ** Express: request, response, [next] *)
(* ===================================================================== *)

(** A payload of type [any]. *)
#[warnings="-register-all"]
Inductive Value : Type :=
| VNull
| VBool (b : bool)
| VNumber (n : Z)
| VString (s : string)
| VArray (items : list Value)
| VObject (props : list (string * Value)).

(** What a request makes observable. *)
Inductive Event : Type :=
| ResWrite (statusCode : Z) (body : WireObject Value)  (* res.status(c).json(b) *)
| NextCall (err : option ApiError.Exception).          (* next(err) *)

Definition Express : Type -> Type := JS.t Event ApiError.Exception.

Record Request : Type := mkRequest { body : Value }.

(** [res.status(code).json(body)] is the one operation of [Response] the
    sources use. *)
Record Response : Type := mkResponse {
  status_json : Z -> ApiResponse.t Value -> Express unit;
}.

Definition NextFunction : Type := option ApiError.Exception -> Express unit.

(** The response Express hands to a handler: [json] serializes its
    argument with [JSON.stringify], which calls the argument's [toJSON],
    and writes status and body. *)
Definition express_res : Response :=
  {| status_json := fun code body =>
       o <- ApiResponse.toJSON body ;;
       emit (ResWrite code o) |}.

(** The [next] Express hands to a handler. *)
Definition express_next : NextFunction :=
  fun err => emit (NextCall err).

(* ===================================================================== *)
(** ** Promises *)
(* ===================================================================== *)

Module Promise.

Inductive Settlement : Type :=
| Fulfilled
| Rejected (reason : ApiError.Exception)
| Pending.                         (* never settles *)

(** A promise: what the work behind it makes observable after the
    synchronous part of the call that created it, and how it settles. *)
Record t : Type := mk {
  deferred : list Event;
  settled : Settlement;
}.

Definition fulfilled : t := mk [] Fulfilled.
Definition rejected (reason : ApiError.Exception) : t := mk [] (Rejected reason).

(** [Promise.resolve(p)] for a promise [p] is [p]. *)
Definition resolve (p : t) : Express t := ret p.

(** [p.catch(onRejected)]: the derived promise.  When [p] rejects, the
    reaction runs [onRejected] on the reason, after everything [p] did;
    the derived promise is fulfilled when the reaction returns and
    rejected when it throws.  Otherwise it settles as [p]. *)
Definition catch (p : t) (onRejected : ApiError.Exception -> Express unit)
    : Express t :=
  fun w =>
    mkOutcome [] []
      (Returned
         match settled p with
         | Rejected reason =>
             let o := onRejected reason w in
             mk (deferred p ++ trace o)
                match result o with
                | Returned _ => Fulfilled
                | Thrown e => Rejected e
                end
         | Fulfilled => p
         | Pending => p
         end).

(** An expression statement whose value is a promise: the value is
    dropped, the work behind the promise goes on. *)
Definition float (p : t) : Express unit :=
  fun _ => mkOutcome [] (deferred p) (Returned tt).

End Promise.

(** An [async] function: its body runs synchronously up to the first
    [await] and yields the promise of the rest; a throw in that
    synchronous part does not leave the call, it rejects the promise the
    call returns. *)
Definition async (body : Express Promise.t) : Express Promise.t :=
  fun w =>
    let o := body w in
    match result o with
    | Returned _ => o
    | Thrown e => mkOutcome (log o) (floating o) (Returned (Promise.rejected e))
    end.

(* ===================================================================== *)
(** ** [asyncHandler] *)
(* ===================================================================== *)

(** [type AsyncController = (req, res, next) => Promise<void>] *)
Definition AsyncController : Type :=
  Request -> Response -> NextFunction -> Express Promise.t.

(** [(req, res, next) => void] *)
Definition RequestHandler : Type :=
  Request -> Response -> NextFunction -> Express unit.

(** [[
    const asyncHandler = (requestHandler: AsyncController) =>
      (req, res, next): void => {
        Promise.resolve(requestHandler(req, res, next)).catch((err) => {
          next(err);
        });
      };
    ]]
    The argument [requestHandler(req, res, next)] is evaluated first; when
    that call throws, the statement is abandoned there. *)
Definition asyncHandler (requestHandler : AsyncController) : RequestHandler :=
  fun req res next =>
    v <- requestHandler req res next ;;
    p <- Promise.resolve v ;;
    q <- Promise.catch p (fun err => next (Some err)) ;;
    Promise.float q.

(** The controller registered as it is, without the wrapper: the promise
    it returns is dropped. *)
Definition unwrapped (requestHandler : AsyncController) : RequestHandler :=
  fun req res next =>
    v <- requestHandler req res next ;;
    Promise.float v.

(** [[
    const healthCheck = asyncHandler(async (req, res) => {
      res.status(200).json(new ApiResponse(200, { message: 'Server is running.' }));
    });
    ]]
    [healthCheck_controller] is the arrow function passed to
    [asyncHandler]. *)
Definition healthCheck_controller : AsyncController :=
  fun req res _ =>
    async (r <- ApiResponse.constructor 200
                  (VObject [("message", VString "Server is running.")])
                  None None ;;
           status_json res 200 r ;;
           ret Promise.fulfilled).

Definition healthCheck : RequestHandler :=
  asyncHandler healthCheck_controller.

(** A controller that is not an [async] function and throws before it
    returns its promise:
    [[
    (req, res, next) => { throw new Error('boom'); }
    ]]
    Its return type is [never], so it is an [AsyncController]. *)
Definition throwing_controller : AsyncController :=
  fun _ _ _ => throw (ApiError.Error "boom").

(** The same body in an [async] function:
    [[
    async (req, res, next) => { throw new Error('boom'); }
    ]] *)
Definition async_throwing_controller : AsyncController :=
  fun _ _ _ => async (throw (ApiError.Error "boom")).

(* ===================================================================== *)
(** ** The CORS origins of [app.ts] *)
(* ===================================================================== *)

(** In this part a string is read as the sequence of its code units, each
    below 256.  [is_white_space] is the white space and line terminators
    of [String.prototype.trim] in that range: TAB, LF, VT, FF, CR, SP and
    NBSP. *)
Definition is_white_space (c : ascii) : bool :=
  let n := nat_of_ascii c in
  (Nat.eqb n 9 || Nat.eqb n 10 || Nat.eqb n 11 || Nat.eqb n 12
   || Nat.eqb n 13 || Nat.eqb n 32 || Nat.eqb n 160)%bool.

(** [s.trimStart()] *)
Fixpoint trimStart (s : string) : string :=
  match s with
  | EmptyString => EmptyString
  | String c rest => if is_white_space c then trimStart rest else s
  end.

(** [s.trimEnd()] *)
Fixpoint trimEnd (s : string) : string :=
  match s with
  | EmptyString => EmptyString
  | String c rest =>
      let r := trimEnd rest in
      if (is_white_space c && String.eqb r EmptyString)%bool then EmptyString
      else String c r
  end.

(** [s.trim()] *)
Definition trim (s : string) : string := trimEnd (trimStart s).

(** [s.split(sep)] for a separator of one code unit: the pieces between
    the separators, in order; the empty string splits into one empty
    piece. *)
Fixpoint split (sep : ascii) (s : string) : list string :=
  match s with
  | EmptyString => [EmptyString]
  | String c rest =>
      if Ascii.eqb c sep then EmptyString :: split sep rest
      else match split sep rest with
           | piece :: pieces => String c piece :: pieces
           | [] => [String c EmptyString]
           end
  end.

(** [[
    origin: process.env.CORS_ORIGIN?.split(',').map((url) => url.trim()) || [
      'http://localhost:3000',
    ],
    ]]
    [?.] passes [undefined] on; an array is truthy whatever it holds, so
    [||] takes its right operand only for [undefined]. *)
Definition cors_origin (CORS_ORIGIN : option string) : list string :=
  match option_map (fun s => map (fun url => trim url) (split "," s)) CORS_ORIGIN with
  | Some origins => origins
  | None => ["http://localhost:3000"]
  end.

(** Does the code unit occur in the string? *)
Fixpoint occurs (c : ascii) (s : string) : bool :=
  match s with
  | EmptyString => false
  | String c' rest => (Ascii.eqb c' c || occurs c rest)%bool
  end.

(** How often does the code unit occur in the string? *)
Fixpoint occurrences (c : ascii) (s : string) : nat :=
  match s with
  | EmptyString => O
  | String c' rest =>
      if Ascii.eqb c' c then S (occurrences c rest) else occurrences c rest
  end.

Definition first_char (s : string) : option ascii :=
  match s with
  | EmptyString => None
  | String c _ => Some c
  end.

Fixpoint last_char (s : string) : option ascii :=
  match s with
  | EmptyString => None
  | String c EmptyString => Some c
  | String _ rest => last_char rest
  end.

(** The string neither starts nor ends with white space. *)
Definition trimmed (s : string) : Prop :=
  (forall c, first_char s = Some c -> is_white_space c = false)
  /\ (forall c, last_char s = Some c -> is_white_space c = false).

(** The string is white space only. *)
Fixpoint all_white_space (s : string) : bool :=
  match s with
  | EmptyString => true
  | String c rest => (is_white_space c && all_white_space rest)%bool
  end.

(** An entry of [CORS_ORIGIN] as it may be written: an origin with white
    space before and after it. *)
Record PaddedOrigin : Type := mkPadded {
  before : string;
  origin : string;
  after : string;
}.

Definition written (p : PaddedOrigin) : string :=
  (before p ++ origin p ++ after p)%string.

Definition well_padded (p : PaddedOrigin) : Prop :=
  all_white_space (before p) = true
  /\ all_white_space (after p) = true
  /\ occurs "," (origin p) = false
  /\ trimmed (origin p).

(* ===================================================================== *)
(** ** Vocabulary of the statements *)
(* ===================================================================== *)

(** The digits of an engine, for the worlds of the examples; the examples
    print safe integers only. *)
Definition sample_digits : Q -> string := fun _ => "1e+21".

(** The number is finite and lies in the closed interval. *)
Definition between (lo hi : Z) (n : number) : Prop :=
  exists q : Q, n = Finite q /\ (inject_Z lo <= q /\ q <= inject_Z hi)%Q.

(** The number is finite and lies in the interval, upper end excluded. *)
Definition from_below (lo hi : Z) (n : number) : Prop :=
  exists q : Q, n = Finite q /\ (inject_Z lo <= q /\ q < inject_Z hi)%Q.

(** [m] run in [w] returns [a], having logged nothing and left nothing
    behind. *)
Definition yields {Ev E A} (m : JS.t Ev E A) (w : World) (a : A) : Prop :=
  m w = mkOutcome [] [] (Returned a).

(** [m] run in [w] throws [e], having logged nothing and left nothing
    behind. *)
Definition fails_with {Ev E A} (m : JS.t Ev E A) (w : World) (e : E) : Prop :=
  m w = mkOutcome [] [] (Thrown e).

(** The object an [ApiError] built in [w] has when its constructor
    accepts the status code. *)
Definition ApiError_built (w : World) (statusCode : number) (message : option string)
    (errors : option (list ErrorDetail.t)) (stack : option string)
    (code : option string) : ApiError.t :=
  ApiError.mk statusCode null (or_default message "Something went wrong")
    false (or_default errors []) code (now w) None "ApiError"
    match stack with
    | Some s => if truthy_string s then s else stackTrace w
    | None => stackTrace w
    end.

(** [m] run in [w] builds, without throwing, an error of the given status,
    machine code and message, and the error serializes with them. *)
Definition builds_kind {Ev} (m : JS.t Ev ApiError.Exception ApiError.t)
    (w : World) (status : Z) (code message : string) : Prop :=
  exists e : ApiError.t,
    yields m w e
    /\ ApiError.statusCode e = status
    /\ ApiError.code e = Some code
    /\ ApiError.message e = message
    /\ exists o : WireObject Value,
         yields (ApiError.toJSON (Ev:=Ev) e) w o
         /\ get "statusCode" o = Some (PNumber status)
         /\ get "code" o = Some (PString code)
         /\ get "message" o = Some (PString message).


(* ===================================================================== *)
(** ** The monad *)
(* ===================================================================== *)

Section MonadFacts.
Context {Ev E : Type}.

Lemma bind_yields {A B} (m : JS.t Ev E A) (k : A -> JS.t Ev E B) w a :
  yields m w a -> bind m k w = k a w.
Proof.
  unfold yields. intros H. cbn. unfold bind_. rewrite H. cbn.
  destruct (k a w); reflexivity.
Qed.

Lemma bind_fails_with {A B} (m : JS.t Ev E A) (k : A -> JS.t Ev E B) w e :
  fails_with m w e -> fails_with (bind m k) w e.
Proof.
  unfold fails_with. intros H. cbn. unfold bind_. rewrite H. reflexivity.
Qed.

Lemma bind_thrown {A B} (m : JS.t Ev E A) (k : A -> JS.t Ev E B) w e :
  result (m w) = Thrown e ->
  bind m k w = mkOutcome (log (m w)) (floating (m w)) (Thrown e).
Proof.
  intros H. cbn. unfold bind_. rewrite H. reflexivity.
Qed.

Lemma yields_inj {A} (m : JS.t Ev E A) w a b :
  yields m w a -> yields m w b -> a = b.
Proof. unfold yields. intros Ha Hb. congruence. Qed.

End MonadFacts.

(* ===================================================================== *)
(** ** Numbers *)
(* ===================================================================== *)

Lemma Number_lt_Finite_l (q : Q) (z : Z) :
  Number_lt (Finite q) z = true <-> (q < inject_Z z)%Q.
Proof.
  cbn. rewrite negb_true_iff. split.
  - intros H. apply Qnot_le_lt. intros Hle.
    apply Qle_bool_iff in Hle. congruence.
  - intros H. destruct (Qle_bool (inject_Z z) q) eqn:Hb; [|reflexivity].
    apply Qle_bool_iff in Hb. exfalso. exact (Qlt_not_le _ _ H Hb).
Qed.

Lemma Number_lt_Finite_r (z : Z) (q : Q) :
  Number_lt z (Finite q) = true <-> (inject_Z z < q)%Q.
Proof.
  cbn. rewrite negb_true_iff. split.
  - intros H. apply Qnot_le_lt. intros Hle.
    apply Qle_bool_iff in Hle. congruence.
  - intros H. destruct (Qle_bool q (inject_Z z)) eqn:Hb; [|reflexivity].
    apply Qle_bool_iff in Hb. exfalso. exact (Qlt_not_le _ _ H Hb).
Qed.

Lemma Number_ge_Finite_l (q : Q) (z : Z) :
  Number_ge (Finite q) z = true <-> (inject_Z z <= q)%Q.
Proof.
  cbn. rewrite negb_involutive. apply Qle_bool_iff.
Qed.

Lemma between_Finite lo hi q :
  between lo hi (Finite q) <-> (inject_Z lo <= q /\ q <= inject_Z hi)%Q.
Proof.
  unfold between. split.
  - intros (q' & Heq & H). inversion Heq; subst. exact H.
  - intros H. exists q. split; [reflexivity|exact H].
Qed.

Lemma from_below_Finite lo hi q :
  from_below lo hi (Finite q) <-> (inject_Z lo <= q /\ q < inject_Z hi)%Q.
Proof.
  unfold from_below. split.
  - intros (q' & Heq & H). inversion Heq; subst. exact H.
  - intros H. exists q. split; [reflexivity|exact H].
Qed.

Lemma between_of_Z lo hi (z : Z) :
  between lo hi z <-> (lo <= z <= hi)%Z.
Proof.
  unfold of_Z. rewrite between_Finite, <- !Zle_Qle. reflexivity.
Qed.

Lemma from_below_of_Z lo hi (z : Z) :
  from_below lo hi z <-> (lo <= z < hi)%Z.
Proof.
  unfold of_Z. rewrite from_below_Finite, <- Zle_Qle, <- Zlt_Qlt. reflexivity.
Qed.

(** The guard of the [ApiError] constructor lets through [NaN] and the
    numbers of [400,599], and nothing else. *)
Lemma ApiError_guard_spec (n : number) :
  (Number_lt n 400 || Number_gt n 599)%bool = false
  <-> n = NaN \/ between 400 599 n.
Proof.
  destruct n as [| | |q].
  - cbn. split; [intros _; left; reflexivity|reflexivity].
  - cbn. split; [discriminate|].
    intros [H|(q & H & _)]; discriminate H.
  - cbn. split; [discriminate|].
    intros [H|(q & H & _)]; discriminate H.
  - unfold Number_gt. rewrite between_Finite, orb_false_iff. split.
    + intros [Hlo Hhi]. right. split.
      * apply Qnot_lt_le. intros H. apply Number_lt_Finite_l in H. congruence.
      * apply Qnot_lt_le. intros H. apply Number_lt_Finite_r in H. congruence.
    + intros [H|[Hlo Hhi]]; [discriminate H|]. split.
      * destruct (Number_lt (Finite q) 400) eqn:Hb; [|reflexivity].
        apply Number_lt_Finite_l in Hb. exfalso. exact (Qlt_not_le _ _ Hb Hlo).
      * destruct (Number_lt 599 (Finite q)) eqn:Hb; [|reflexivity].
        apply Number_lt_Finite_r in Hb. exfalso. exact (Qlt_not_le _ _ Hb Hhi).
Qed.

(** The guard of the [ApiResponse] constructor lets through [NaN] and the
    numbers from 200 up to, but not including, 400, and nothing else. *)
Lemma ApiResponse_guard_spec (n : number) :
  (Number_lt n 200 || Number_ge n 400)%bool = false
  <-> n = NaN \/ from_below 200 400 n.
Proof.
  destruct n as [| | |q].
  - cbn. split; [intros _; left; reflexivity|reflexivity].
  - cbn. split; [discriminate|].
    intros [H|(q & H & _)]; discriminate H.
  - cbn. split; [discriminate|].
    intros [H|(q & H & _)]; discriminate H.
  - rewrite from_below_Finite, orb_false_iff. split.
    + intros [Hlo Hhi]. right. split.
      * apply Qnot_lt_le. intros H. apply Number_lt_Finite_l in H. congruence.
      * apply Qnot_le_lt. intros H. apply Number_ge_Finite_l in H. congruence.
    + intros [H|[Hlo Hhi]]; [discriminate H|]. split.
      * destruct (Number_lt (Finite q) 200) eqn:Hb; [|reflexivity].
        apply Number_lt_Finite_l in Hb. exfalso. exact (Qlt_not_le _ _ Hb Hlo).
      * destruct (Number_ge (Finite q) 400) eqn:Hb; [|reflexivity].
        apply Number_ge_Finite_l in Hb. exfalso. exact (Qlt_not_le _ _ Hhi Hb).
Qed.

(* ===================================================================== *)
(** ** [ApiError]: construction *)
(* ===================================================================== *)

Section ApiErrorFacts.
Context {Ev : Type}.

Lemma ApiError_constructor_accepts statusCode message errors stack code w :
  (Number_lt statusCode 400 || Number_gt statusCode 599)%bool = false ->
  yields (ApiError.constructor (Ev:=Ev) statusCode message errors stack code) w
         (ApiError_built w statusCode message errors stack code).
Proof.
  intros Hguard. unfold yields, ApiError.constructor. rewrite Hguard.
  reflexivity.
Qed.

Lemma ApiError_constructor_rejects statusCode message errors stack code w :
  (Number_lt statusCode 400 || Number_gt statusCode 599)%bool = true ->
  fails_with (ApiError.constructor (Ev:=Ev) statusCode message errors stack code) w
    (ApiError.Error ("Invalid status code: " ++ Number_toString w statusCode
                       ++ ". Must be between 400-599")%string).
Proof.
  intros Hguard. unfold fails_with, ApiError.constructor. rewrite Hguard.
  reflexivity.
Qed.

Lemma ApiError_toJSON_yields {T} (e : ApiError.t) w :
  yields (ApiError.toJSON (Ev:=Ev) (T:=T) e) w
    ([ ("success", PBool (ApiError.success e));
       ("statusCode", PNumber (ApiError.statusCode e));
       ("message", PString (ApiError.message e));
       ("data", PNull);
       ("errors", PErrors (ApiError.errors e)) ]
     ++ spread_if truthy_string (ApiError.code e) "code" PString
     ++ [ ("timestamp", PString (ApiError.timestamp e)) ]
     ++ spread_if truthy_string (ApiError.correlationId e) "correlationId" PString).
Proof.
  unfold yields, ApiError.toJSON. destruct (ApiError.data e). reflexivity.
Qed.

End ApiErrorFacts.

(** C2, on the code.  For every number in [400,599] the [ApiError]
    constructor succeeds, and the object it builds has [success = false]
    and [data = null] (also in its serialization).  For every number
    outside [400,599] other than [NaN] the constructor throws its
    "Invalid status code" error, and nothing has been written to any
    response: the run logs no event and leaves none behind.  [NaN] is
    outside [400,599], and the constructor accepts it: both comparisons
    of the guard are false, and an error with [statusCode = NaN] is
    built. *)
Theorem ApiError_constructor_status_range :
  forall (Ev : Type) (statusCode : number) (message : option string)
         (errors : option (list ErrorDetail.t)) (stack code : option string)
         (w : World),
    (between 400 599 statusCode ->
       exists e : ApiError.t,
         yields (ApiError.constructor (Ev:=Ev) statusCode message errors stack code) w e
         /\ ApiError.statusCode e = statusCode
         /\ ApiError.success e = false
         /\ ApiError.data e = null
         /\ exists o : WireObject Value,
              yields (ApiError.toJSON (Ev:=Ev) e) w o
              /\ get "success" o = Some (PBool false)
              /\ get "data" o = Some PNull)
    /\ (~ between 400 599 statusCode -> statusCode <> NaN ->
         fails_with (ApiError.constructor (Ev:=Ev) statusCode message errors stack code) w
           (ApiError.Error ("Invalid status code: " ++ Number_toString w statusCode
                              ++ ". Must be between 400-599")%string))
    /\ (~ between 400 599 NaN
        /\ exists e : ApiError.t,
             yields (ApiError.constructor (Ev:=Ev) NaN message errors stack code) w e
             /\ ApiError.statusCode e = NaN).
Proof.
  intros Ev statusCode message errors stack code w. split; [|split].
  - intros Hin. eexists.
    split; [apply ApiError_constructor_accepts, ApiError_guard_spec; right; exact Hin|].
    repeat split. eexists. split; [apply ApiError_toJSON_yields|].
    split; reflexivity.
  - intros Hout Hnan. apply ApiError_constructor_rejects.
    destruct (Number_lt statusCode 400 || Number_gt statusCode 599)%bool eqn:Hg;
      [reflexivity|].
    apply ApiError_guard_spec in Hg. tauto.
  - split.
    + intros (q & H & _). discriminate H.
    + eexists. split; [apply ApiError_constructor_accepts; reflexivity|].
      reflexivity.
Qed.

Lemma ApiError_constructor_status_range_witness :
  (exists e : ApiError.t,
     yields (ApiError.constructor (Ev:=Event) 404 (Some "Project not found")
               None None None)
            (mkWorld "2025-08-20T07:28:00.000Z" "at handler" sample_digits) e
     /\ ApiError.statusCode e = 404
     /\ ApiError.success e = false
     /\ ApiError.data e = null
     /\ exists o : WireObject Value,
          yields (ApiError.toJSON (Ev:=Event) e)
                 (mkWorld "2025-08-20T07:28:00.000Z" "at handler" sample_digits) o
          /\ get "success" o = Some (PBool false)
          /\ get "data" o = Some PNull)
  /\ fails_with (ApiError.constructor (Ev:=Event) 200 None None None None)
       (mkWorld "2025-08-20T07:28:00.000Z" "at handler" sample_digits)
       (ApiError.Error "Invalid status code: 200. Must be between 400-599").
Proof.
  split.
  - apply (proj1 (ApiError_constructor_status_range Event 404
                    (Some "Project not found") None None None
                    (mkWorld "2025-08-20T07:28:00.000Z" "at handler" sample_digits))).
    apply between_of_Z. lia.
  - apply (proj1 (proj2 (ApiError_constructor_status_range Event 200
                    None None None None
                    (mkWorld "2025-08-20T07:28:00.000Z" "at handler" sample_digits)))).
    + intros H. apply between_of_Z in H. lia.
    + discriminate.
Defined.

Section ApiErrorInversion.
Context {Ev : Type}.

Lemma ApiError_constructor_yields_inv statusCode message errors stack code w e :
  yields (ApiError.constructor (Ev:=Ev) statusCode message errors stack code) w e ->
  (Number_lt statusCode 400 || Number_gt statusCode 599)%bool = false
  /\ e = ApiError_built w statusCode message errors stack code.
Proof.
  intros Hy.
  destruct (Number_lt statusCode 400 || Number_gt statusCode 599)%bool eqn:Hg.
  - pose proof (@ApiError_constructor_rejects Ev statusCode message errors
                  stack code w Hg) as Hr.
    unfold yields in Hy. unfold fails_with in Hr. rewrite Hr in Hy.
    discriminate Hy.
  - split; [reflexivity|].
    eapply yields_inj; [exact Hy|]. apply ApiError_constructor_accepts. exact Hg.
Qed.

End ApiErrorInversion.

(* ===================================================================== *)
(** ** [ApiResponse]: construction *)
(* ===================================================================== *)

Section ApiResponseFacts.
Context {Ev T : Type}.

Lemma ApiResponse_constructor_accepts statusCode (data : T) message metadata w :
  (Number_lt statusCode 200 || Number_ge statusCode 400)%bool = false ->
  yields (ApiResponse.constructor (Ev:=Ev) statusCode data message metadata) w
         (ApiResponse.mk true statusCode data (or_default message "Success")
                         metadata (now w)).
Proof.
  intros Hguard. unfold yields, ApiResponse.constructor. rewrite Hguard.
  reflexivity.
Qed.

Lemma ApiResponse_constructor_rejects statusCode (data : T) message metadata w :
  (Number_lt statusCode 200 || Number_ge statusCode 400)%bool = true ->
  fails_with (ApiResponse.constructor (Ev:=Ev) statusCode data message metadata) w
    (ApiError.Error ("Invalid success status code: "
                       ++ Number_toString w statusCode
                       ++ ". Must be between 200-399")%string).
Proof.
  intros Hguard. unfold fails_with, ApiResponse.constructor. rewrite Hguard.
  reflexivity.
Qed.

Lemma ApiResponse_constructor_yields_inv statusCode (data : T) message metadata w r :
  yields (ApiResponse.constructor (Ev:=Ev) statusCode data message metadata) w r ->
  (Number_lt statusCode 200 || Number_ge statusCode 400)%bool = false
  /\ r = ApiResponse.mk true statusCode data (or_default message "Success")
                        metadata (now w).
Proof.
  intros Hy.
  destruct (Number_lt statusCode 200 || Number_ge statusCode 400)%bool eqn:Hg.
  - pose proof (@ApiResponse_constructor_rejects statusCode data message
                  metadata w Hg) as Hr.
    unfold yields in Hy. unfold fails_with in Hr. rewrite Hr in Hy.
    discriminate Hy.
  - split; [reflexivity|].
    eapply yields_inj; [exact Hy|]. apply ApiResponse_constructor_accepts.
    exact Hg.
Qed.

Lemma ApiResponse_toJSON_yields (r : ApiResponse.t T) w :
  yields (ApiResponse.toJSON (Ev:=Ev) r) w
    ([ ("success", PBool (ApiResponse.success r));
       ("statusCode", PNumber (ApiResponse.statusCode r));
       ("message", PString (ApiResponse.message r));
       ("data", PData (ApiResponse.data r)) ]
     ++ spread_if (fun _ => true) (ApiResponse.metadata r) "metadata" PMetadata
     ++ [ ("timestamp", PString (ApiResponse.timestamp r)) ]).
Proof. reflexivity. Qed.

End ApiResponseFacts.

(** C3, on the code.  For every number in [200,399] the [ApiResponse]
    constructor succeeds and the object it builds has [success = true]
    (also in its serialization).  For every number that is not [NaN],
    below 200 or at least 400, the constructor throws its "Invalid
    success status code" error.  But the guard tests [statusCode >= 400],
    not [statusCode > 399]: a number strictly between 399 and 400, such
    as 399.5, is outside [200,399] and is accepted, and so is [NaN]. *)
Theorem ApiResponse_constructor_status_range :
  forall (Ev T : Type) (statusCode : number) (data : T) (message : option string)
         (metadata : option ResponseMetadata.t) (w : World),
    (between 200 399 statusCode ->
       exists r : ApiResponse.t T,
         yields (ApiResponse.constructor (Ev:=Ev) statusCode data message metadata) w r
         /\ ApiResponse.statusCode r = statusCode
         /\ ApiResponse.success r = true
         /\ exists o : WireObject T,
              yields (ApiResponse.toJSON (Ev:=Ev) r) w o
              /\ get "success" o = Some (PBool true))
    /\ (~ from_below 200 400 statusCode -> statusCode <> NaN ->
         fails_with (ApiResponse.constructor (Ev:=Ev) statusCode data message metadata) w
           (ApiError.Error ("Invalid success status code: "
                              ++ Number_toString w statusCode
                              ++ ". Must be between 200-399")%string))
    /\ (forall n : number,
          n = NaN \/ n = Finite (799 # 2) ->
          ~ between 200 399 n
          /\ exists r : ApiResponse.t T,
               yields (ApiResponse.constructor (Ev:=Ev) n data message metadata) w r
               /\ ApiResponse.statusCode r = n).
Proof.
  intros Ev T statusCode data message metadata w. split; [|split].
  - intros (q & Hq & Hlo & Hhi). eexists.
    split; [apply ApiResponse_constructor_accepts, ApiResponse_guard_spec|].
    + right. exists q. split; [exact Hq|]. split; [exact Hlo|].
      apply (Qle_lt_trans _ _ _ Hhi). reflexivity.
    + repeat split. eexists. split; [apply ApiResponse_toJSON_yields|].
      reflexivity.
  - intros Hout Hnan. apply ApiResponse_constructor_rejects.
    destruct (Number_lt statusCode 200 || Number_ge statusCode 400)%bool eqn:Hg;
      [reflexivity|].
    apply ApiResponse_guard_spec in Hg. tauto.
  - intros n [Hn|Hn]; subst n; split.
    + intros (q & H & _). discriminate H.
    + eexists. split; [apply ApiResponse_constructor_accepts; reflexivity|].
      reflexivity.
    + intros H. apply between_Finite in H. destruct H as [_ Hhi].
      revert Hhi. unfold Qle. cbn. lia.
    + eexists. split; [apply ApiResponse_constructor_accepts; reflexivity|].
      reflexivity.
Qed.

Lemma ApiResponse_constructor_status_range_witness :
  (exists r : ApiResponse.t Value,
     yields (ApiResponse.constructor (Ev:=Event) 201 (VString "created") None None)
            (mkWorld "2025-08-20T07:28:00.000Z" "at handler" sample_digits) r
     /\ ApiResponse.statusCode r = 201
     /\ ApiResponse.success r = true
     /\ exists o : WireObject Value,
          yields (ApiResponse.toJSON (Ev:=Event) r)
                 (mkWorld "2025-08-20T07:28:00.000Z" "at handler" sample_digits) o
          /\ get "success" o = Some (PBool true))
  /\ fails_with (ApiResponse.constructor (Ev:=Event) 404 (VString "created") None None)
       (mkWorld "2025-08-20T07:28:00.000Z" "at handler" sample_digits)
       (ApiError.Error "Invalid success status code: 404. Must be between 200-399")
  /\ exists r : ApiResponse.t Value,
       yields (ApiResponse.constructor (Ev:=Event) (Finite (799 # 2))
                 (VString "created") None None)
              (mkWorld "2025-08-20T07:28:00.000Z" "at handler" sample_digits) r
       /\ ApiResponse.statusCode r = Finite (799 # 2).
Proof.
  split; [|split].
  - apply (proj1 (ApiResponse_constructor_status_range Event 201
                    (VString "created") None None
                    (mkWorld "2025-08-20T07:28:00.000Z" "at handler" sample_digits))).
    apply between_of_Z. lia.
  - apply (proj1 (proj2 (ApiResponse_constructor_status_range Event 404
                    (VString "created") None None
                    (mkWorld "2025-08-20T07:28:00.000Z" "at handler" sample_digits)))).
    + intros H. apply from_below_of_Z in H. lia.
    + discriminate.
  - apply (proj2 (proj2 (ApiResponse_constructor_status_range Event 404
                    (VString "created") None None
                    (mkWorld "2025-08-20T07:28:00.000Z" "at handler" sample_digits)))
             (Finite (799 # 2))).
    right. reflexivity.
Defined.

(* ===================================================================== *)
(** ** The error kinds and their [errors] sequence *)
(* ===================================================================== *)

(** C5, as stated, fails for [badRequest]: called with two details it
    builds an error that carries both. *)
Lemma badRequest_carries_two_details :
  ~ (forall (message : option string) (errors : option (list ErrorDetail.t))
            (w : World) (e : ApiError.t),
       yields (ApiError.badRequest (Ev:=Event) message errors) w e ->
       (List.length (ApiError.errors e) <= 1)%nat).
Proof.
  intros H.
  pose (d1 := ErrorDetail.mk (Some "email") "Valid email is required" None).
  pose (d2 := ErrorDetail.mk (Some "password")
                "Password must be at least 8 characters" None).
  specialize (H (Some "Validation failed") (Some [d1; d2])
                (mkWorld "2025-08-20T07:28:00.000Z" "at handler" sample_digits)
                (ApiError_built (mkWorld "2025-08-20T07:28:00.000Z" "at handler" sample_digits)
                   400 (Some "Validation failed") (Some [d1; d2]) None
                   (Some "BAD_REQUEST"))).
  cbn in H. assert (Hle : (2 <= 1)%nat) by (apply H; reflexivity). lia.
Qed.

(** C5, amended.  [unauthorized], [forbidden], [notFound], [conflict] and
    [internal] always build an error whose [errors] sequence is empty;
    [badRequest] and [validation] both build an error whose [errors]
    sequence is the one the caller passed (empty when none was passed),
    whatever its length. *)
Theorem error_kinds_errors_sequence :
  forall (Ev : Type) (message : option string)
         (errors : option (list ErrorDetail.t)) (w : World),
    (exists e, yields (ApiError.unauthorized (Ev:=Ev) message) w e
               /\ ApiError.statusCode e = 401 /\ ApiError.errors e = [])
    /\ (exists e, yields (ApiError.forbidden (Ev:=Ev) message) w e
                  /\ ApiError.statusCode e = 403 /\ ApiError.errors e = [])
    /\ (exists e, yields (ApiError.notFound (Ev:=Ev) message) w e
                  /\ ApiError.statusCode e = 404 /\ ApiError.errors e = [])
    /\ (exists e, yields (ApiError.conflict (Ev:=Ev) message) w e
                  /\ ApiError.statusCode e = 409 /\ ApiError.errors e = [])
    /\ (exists e, yields (ApiError.internal (Ev:=Ev) message) w e
                  /\ ApiError.statusCode e = 500 /\ ApiError.errors e = [])
    /\ (exists e, yields (ApiError.badRequest (Ev:=Ev) message errors) w e
                  /\ ApiError.statusCode e = 400
                  /\ ApiError.errors e = or_default errors [])
    /\ (exists e, yields (ApiError.validation (Ev:=Ev) message errors) w e
                  /\ ApiError.statusCode e = 422
                  /\ ApiError.errors e = or_default errors []).
Proof.
  intros Ev message errors w.
  repeat split; eexists; (split; [reflexivity | split; reflexivity]).
Qed.

(* ===================================================================== *)
(** ** [correlationId] *)
(* ===================================================================== *)





(* ===================================================================== *)
(** ** Serialization *)
(* ===================================================================== *)

Lemma truthy_string_spec (s : string) :
  truthy_string s = true <-> s <> "".
Proof.
  unfold truthy_string. rewrite negb_true_iff. apply String.eqb_neq.
Qed.

Lemma spread_if_string_keys {T} (x : option string) (k : string) :
  keys (spread_if (T:=T) truthy_string x k PString)
  = match x with
    | Some s => if truthy_string s then [k] else []
    | None => []
    end.
Proof.
  unfold spread_if.
  destruct x as [s|]; [destruct (truthy_string s)|]; reflexivity.
Qed.

Lemma spread_if_string_In {T} (x : option string) (k k' : string)
    (v : PropertyValue T) :
  In (k', v) (spread_if truthy_string x k PString) ->
  k' = k /\ exists s, x = Some s /\ s <> "" /\ v = PString s.
Proof.
  destruct x as [s|]; cbn; [|tauto].
  destruct (truthy_string s) eqn:Hs; cbn; [|tauto].
  intros [Heq|[]]. inversion Heq; subst. split; [reflexivity|].
  exists s. repeat split. apply truthy_string_spec. exact Hs.
Qed.

(** C6. Serialization leaves out [code], [correlationId] and [metadata]
    when the field is absent, and never gives one of them the value
    [null]: in the object an error serializes to, the only property that
    is [null] is [data]; in the object a response serializes to, the
    [metadata] property, when there, is the metadata object.  The error
    [new ApiError(404, "Project not found")] serializes to exactly
    [success], [statusCode], [message], [data], [errors], [timestamp]. *)
Theorem toJSON_omits_absent_fields :
  forall (Ev T : Type) (w : World),
    (forall e : ApiError.t,
        exists o : WireObject T,
          yields (ApiError.toJSON (Ev:=Ev) e) w o
          /\ (ApiError.code e = None -> ~ In "code" (keys o))
          /\ (ApiError.correlationId e = None -> ~ In "correlationId" (keys o))
          /\ (forall k, In (k, PNull) o -> k = "data"))
    /\ (forall r : ApiResponse.t T,
          exists o : WireObject T,
            yields (ApiResponse.toJSON (Ev:=Ev) r) w o
            /\ (ApiResponse.metadata r = None -> ~ In "metadata" (keys o))
            /\ (forall v, In ("metadata", v) o ->
                  exists m, ApiResponse.metadata r = Some m /\ v = PMetadata m))
    /\ (exists e : ApiError.t,
          yields (ApiError.constructor (Ev:=Ev) 404 (Some "Project not found")
                    None None None) w e
          /\ yields (ApiError.toJSON (Ev:=Ev) (T:=T) e) w
               [ ("success", PBool false);
                 ("statusCode", PNumber 404);
                 ("message", PString "Project not found");
                 ("data", PNull);
                 ("errors", PErrors []);
                 ("timestamp", PString (now w)) ]).
Proof.
  intros Ev T w. split; [|split].
  - intros e. eexists. split; [apply ApiError_toJSON_yields|].
    split; [|split].
    + intros Hc. rewrite Hc. unfold keys. cbn.
      destruct (ApiError.correlationId e) as [s|]; cbn;
        [destruct (truthy_string s); cbn|];
        intros H; repeat (destruct H as [H|H]; [discriminate H|]); exact H.
    + intros Hc. rewrite Hc. unfold keys. cbn.
      destruct (ApiError.code e) as [s|]; cbn;
        [destruct (truthy_string s); cbn|];
        intros H; repeat (destruct H as [H|H]; [discriminate H|]); exact H.
    + intros k Hin.
      repeat (apply in_app_or in Hin; destruct Hin as [Hin|Hin]).
      * cbn in Hin.
        repeat (destruct Hin as [Hin|Hin];
                [inversion Hin; subst; try reflexivity|]).
        destruct Hin.
      * apply spread_if_string_In in Hin.
        destruct Hin as (_ & s & _ & _ & Hv). discriminate Hv.
      * cbn in Hin. destruct Hin as [Hin|[]]. discriminate Hin.
      * apply spread_if_string_In in Hin.
        destruct Hin as (_ & s & _ & _ & Hv). discriminate Hv.
  - intros r. eexists. split; [apply ApiResponse_toJSON_yields|]. split.
    + intros Hm. rewrite Hm. unfold keys. cbn.
      intros H; repeat (destruct H as [H|H]; [discriminate H|]); exact H.
    + intros v Hin. destruct (ApiResponse.metadata r) as [m|]; cbn in Hin.
      * repeat (destruct Hin as [Hin|Hin]; [try discriminate Hin|]).
        -- inversion Hin; subst. exists m. split; reflexivity.
        -- destruct Hin.
      * repeat (destruct Hin as [Hin|Hin]; [discriminate Hin|]). destruct Hin.
  - eexists. split; [apply ApiError_constructor_accepts; reflexivity|].
    reflexivity.
Qed.

Lemma toJSON_omits_absent_fields_witness :
  exists o : WireObject Value,
    yields (ApiError.toJSON (Ev:=Event)
              (ApiError_built (mkWorld "2025-08-20T07:28:00.000Z" "at handler" sample_digits)
                 404 (Some "Project not found") None None None))
           (mkWorld "2025-08-20T07:28:00.000Z" "at handler" sample_digits) o
    /\ ~ In "code" (keys o) /\ ~ In "correlationId" (keys o).
Proof.
  destruct (proj1 (toJSON_omits_absent_fields Event Value
                     (mkWorld "2025-08-20T07:28:00.000Z" "at handler" sample_digits))
              (ApiError_built (mkWorld "2025-08-20T07:28:00.000Z" "at handler" sample_digits)
                 404 (Some "Project not found") None None None))
    as (o & Hy & Hcode & Hcorr & _).
  exists o. split; [exact Hy|]. split.
  - apply Hcode. reflexivity.
  - apply Hcorr. reflexivity.
Defined.

(** C10. An error's serialization has the [code] key exactly when [code]
    is a non-empty string, and the [correlationId] key exactly when
    [correlationId] is a non-empty string.  An error built with the empty
    string as [code] serializes to the same object as one built without
    [code]. *)
Theorem ApiError_toJSON_key_iff_nonempty :
  forall (Ev T : Type) (w : World),
    (forall e : ApiError.t,
        exists o : WireObject T,
          yields (ApiError.toJSON (Ev:=Ev) e) w o
          /\ (In "code" (keys o)
              <-> exists s, ApiError.code e = Some s /\ s <> "")
          /\ (In "correlationId" (keys o)
              <-> exists s, ApiError.correlationId e = Some s /\ s <> ""))
    /\ (forall statusCode message errors stack,
          (e <- ApiError.constructor (Ev:=Ev) statusCode message errors stack
                  (Some "") ;;
           ApiError.toJSON (T:=T) e) w
          = (e <- ApiError.constructor (Ev:=Ev) statusCode message errors stack
                    None ;;
             ApiError.toJSON (T:=T) e) w).
Proof.
  intros Ev T w. split.
  - intros e. eexists. split; [apply ApiError_toJSON_yields|].
    unfold keys. rewrite !map_app, !in_app_iff.
    fold (keys (spread_if (T:=T) truthy_string (ApiError.code e) "code" PString)).
    fold (keys (spread_if (T:=T) truthy_string (ApiError.correlationId e)
                  "correlationId" PString)).
    rewrite !spread_if_string_keys. cbn. split; split.
    + intros [H|[H|[H|H]]].
      * repeat (destruct H as [H|H]; [discriminate H|]). destruct H.
      * destruct (ApiError.code e) as [s|]; [|destruct H].
        destruct (truthy_string s) eqn:Hs; [|destruct H].
        exists s. split; [reflexivity|]. apply truthy_string_spec. exact Hs.
      * destruct H as [H|[]]. discriminate H.
      * destruct (ApiError.correlationId e) as [s|]; [|destruct H].
        destruct (truthy_string s); [|destruct H].
        destruct H as [H|[]]. discriminate H.
    + intros (s & Hc & Hs). right. left. rewrite Hc.
      apply truthy_string_spec in Hs. rewrite Hs. left. reflexivity.
    + intros [H|[H|[H|H]]].
      * repeat (destruct H as [H|H]; [discriminate H|]). destruct H.
      * destruct (ApiError.code e) as [s|]; [|destruct H].
        destruct (truthy_string s); [|destruct H].
        destruct H as [H|[]]. discriminate H.
      * destruct H as [H|[]]. discriminate H.
      * destruct (ApiError.correlationId e) as [s|]; [|destruct H].
        destruct (truthy_string s) eqn:Hs; [|destruct H].
        exists s. split; [reflexivity|]. apply truthy_string_spec. exact Hs.
    + intros (s & Hc & Hs). right. right. right. rewrite Hc.
      apply truthy_string_spec in Hs. rewrite Hs. left. reflexivity.
  - intros statusCode message errors stack.
    destruct (Number_lt statusCode 400 || Number_gt statusCode 599)%bool eqn:Hg.
    + pose proof (bind_fails_with (fun e => ApiError.toJSON (T:=T) e)
                    (@ApiError_constructor_rejects Ev statusCode message errors
                       stack (Some "") w Hg)) as H1.
      pose proof (bind_fails_with (fun e => ApiError.toJSON (T:=T) e)
                    (@ApiError_constructor_rejects Ev statusCode message errors
                       stack None w Hg)) as H2.
      unfold fails_with in H1, H2. rewrite H1, H2. reflexivity.
    + rewrite (bind_yields (fun e => ApiError.toJSON (T:=T) e)
                 (@ApiError_constructor_accepts Ev statusCode message errors
                    stack (Some "") w Hg)).
      rewrite (bind_yields (fun e => ApiError.toJSON (T:=T) e)
                 (@ApiError_constructor_accepts Ev statusCode message errors
                    stack None w Hg)).
      reflexivity.
Qed.

Lemma ApiError_toJSON_key_iff_nonempty_witness :
  exists o : WireObject Value,
    yields (ApiError.toJSON (Ev:=Event)
              (ApiError_built (mkWorld "2025-08-20T07:28:00.000Z" "at handler" sample_digits)
                 404 (Some "Project not found") None None (Some "NOT_FOUND")))
           (mkWorld "2025-08-20T07:28:00.000Z" "at handler" sample_digits) o
    /\ In "code" (keys o) /\ ~ In "correlationId" (keys o).
Proof.
  destruct (proj1 (ApiError_toJSON_key_iff_nonempty Event Value
                     (mkWorld "2025-08-20T07:28:00.000Z" "at handler" sample_digits))
              (ApiError_built (mkWorld "2025-08-20T07:28:00.000Z" "at handler" sample_digits)
                 404 (Some "Project not found") None None (Some "NOT_FOUND")))
    as (o & Hy & Hcode & Hcorr).
  exists o. split; [exact Hy|]. split.
  - apply Hcode. exists "NOT_FOUND". split; [reflexivity|discriminate].
  - intros Hin. apply Hcorr in Hin. destruct Hin as (s & Hs & _).
    discriminate Hs.
Defined.

Lemma get_timestamp_ApiError {T} (e : ApiError.t) :
  get (T:=T) "timestamp"
    ([ ("success", PBool (ApiError.success e));
       ("statusCode", PNumber (ApiError.statusCode e));
       ("message", PString (ApiError.message e));
       ("data", PNull);
       ("errors", PErrors (ApiError.errors e)) ]
     ++ spread_if truthy_string (ApiError.code e) "code" PString
     ++ [ ("timestamp", PString (ApiError.timestamp e)) ]
     ++ spread_if truthy_string (ApiError.correlationId e) "correlationId" PString)
  = Some (PString (ApiError.timestamp e)).
Proof.
  cbn. destruct (ApiError.code e) as [s|]; cbn;
    [destruct (truthy_string s)|]; reflexivity.
Qed.

Lemma get_timestamp_ApiResponse {T} (r : ApiResponse.t T) :
  get "timestamp"
    ([ ("success", PBool (ApiResponse.success r));
       ("statusCode", PNumber (ApiResponse.statusCode r));
       ("message", PString (ApiResponse.message r));
       ("data", PData (ApiResponse.data r)) ]
     ++ spread_if (fun _ => true) (ApiResponse.metadata r) "metadata" PMetadata
     ++ [ ("timestamp", PString (ApiResponse.timestamp r)) ])
  = Some (PString (ApiResponse.timestamp r)).
Proof.
  cbn. destruct (ApiResponse.metadata r); reflexivity.
Qed.

(** C8. Serialization reads the envelope and nothing else: each envelope
    has one object that [toJSON] returns in every world (whatever the
    clock reads by then), without logging anything, so serializing an
    envelope twice in a row returns that object twice.  The [timestamp]
    it shows is the clock reading taken by the constructor. *)
Theorem toJSON_twice_identical :
  forall (Ev T : Type),
    (forall e : ApiError.t,
        exists o : WireObject T,
          (forall w, yields (ApiError.toJSON (Ev:=Ev) e) w o)
          /\ (forall w,
                yields (o1 <- ApiError.toJSON (Ev:=Ev) (T:=T) e ;;
                        o2 <- ApiError.toJSON (Ev:=Ev) (T:=T) e ;;
                        ret (o1, o2)) w (o, o))
          /\ get "timestamp" o = Some (PString (ApiError.timestamp e)))
    /\ (forall r : ApiResponse.t T,
          exists o : WireObject T,
            (forall w, yields (ApiResponse.toJSON (Ev:=Ev) r) w o)
            /\ (forall w,
                  yields (o1 <- ApiResponse.toJSON (Ev:=Ev) r ;;
                          o2 <- ApiResponse.toJSON (Ev:=Ev) r ;;
                          ret (o1, o2)) w (o, o))
            /\ get "timestamp" o = Some (PString (ApiResponse.timestamp r)))
    /\ (forall statusCode message errors stack code (w0 : World) (e : ApiError.t),
          yields (ApiError.constructor (Ev:=Ev) statusCode message errors stack code)
                 w0 e ->
          forall (w1 : World) (o : WireObject T),
            yields (ApiError.toJSON (Ev:=Ev) e) w1 o ->
            get "timestamp" o = Some (PString (now w0)))
    /\ (forall statusCode (data : T) message metadata (w0 : World)
               (r : ApiResponse.t T),
          yields (ApiResponse.constructor (Ev:=Ev) statusCode data message metadata)
                 w0 r ->
          forall (w1 : World) (o : WireObject T),
            yields (ApiResponse.toJSON (Ev:=Ev) r) w1 o ->
            get "timestamp" o = Some (PString (now w0))).
Proof.
  intros Ev T. split; [|split; [|split]].
  - intros e. eexists. split; [|split].
    + intros w. apply ApiError_toJSON_yields.
    + intros w. unfold yields.
      rewrite (bind_yields _ (ApiError_toJSON_yields (Ev:=Ev) (T:=T) e w)).
      rewrite (bind_yields _ (ApiError_toJSON_yields (Ev:=Ev) (T:=T) e w)).
      reflexivity.
    + apply get_timestamp_ApiError.
  - intros r. eexists. split; [|split].
    + intros w. apply ApiResponse_toJSON_yields.
    + intros w. reflexivity.
    + apply get_timestamp_ApiResponse.
  - intros statusCode message errors stack code w0 e Hc w1 o Ho.
    apply ApiError_constructor_yields_inv in Hc. destruct Hc as [_ He].
    pose proof (yields_inj Ho (ApiError_toJSON_yields (Ev:=Ev) (T:=T) e w1)) as Heq.
    rewrite Heq, get_timestamp_ApiError, He. reflexivity.
  - intros statusCode data message metadata w0 r Hc w1 o Ho.
    apply ApiResponse_constructor_yields_inv in Hc. destruct Hc as [_ Hr].
    pose proof (yields_inj Ho (ApiResponse_toJSON_yields (Ev:=Ev) r w1)) as Heq.
    rewrite Heq, get_timestamp_ApiResponse, Hr. reflexivity.
Qed.

Lemma toJSON_twice_identical_witness :
  get (T:=Value) "timestamp"
    [ ("success", PBool false);
      ("statusCode", PNumber 404);
      ("message", PString "Project not found");
      ("data", PNull);
      ("errors", PErrors []);
      ("timestamp", PString "2025-08-20T07:28:00.000Z") ]
  = Some (PString "2025-08-20T07:28:00.000Z").
Proof.
  apply (proj1 (proj2 (proj2 (toJSON_twice_identical Event Value)))
           404 (Some "Project not found") None None None
           (mkWorld "2025-08-20T07:28:00.000Z" "at handler" sample_digits)
           (ApiError_built (mkWorld "2025-08-20T07:28:00.000Z" "at handler" sample_digits)
              404 (Some "Project not found") None None None)
           eq_refl
           (mkWorld "2031-01-01T00:00:00.000Z" "at reporter" sample_digits)).
  reflexivity.
Defined.

(** C9. For every three items [a], [b], [c],
    [ApiResponse.paginated([a,b,c], {total:50, page:1, limit:10,
    totalPages:5})] builds a response whose serialization has exactly the
    properties [success: true], [statusCode: 200], [data: [a,b,c]],
    [metadata: {total:50, page:1, limit:10, totalPages:5}],
    [message: "Data retrieved successfully"] and [timestamp], the clock
    reading at construction.  ([toJSON] inserts [message] before [data];
    the two listings agree as objects.) *)
Theorem paginated_serialization :
  forall (Ev T : Type) (a b c : T) (w : World),
    let metadata :=
      ResponseMetadata.mk (Some 50) (Some 1) (Some 10) (Some 5) None None in
    exists (r : ApiResponse.t (list T)) (o : WireObject (list T)),
      yields (ApiResponse.paginated (Ev:=Ev) [a; b; c] metadata None) w r
      /\ yields (ApiResponse.toJSON (Ev:=Ev) r) w o
      /\ o = [ ("success", PBool true);
               ("statusCode", PNumber 200);
               ("message", PString "Data retrieved successfully");
               ("data", PData [a; b; c]);
               ("metadata", PMetadata metadata);
               ("timestamp", PString (now w)) ]
      /\ Permutation o
           [ ("success", PBool true);
             ("statusCode", PNumber 200);
             ("data", PData [a; b; c]);
             ("metadata", PMetadata metadata);
             ("message", PString "Data retrieved successfully");
             ("timestamp", PString (now w)) ].
Proof.
  intros Ev T a b c w metadata.
  eexists. eexists. split; [reflexivity|]. split; [reflexivity|].
  split; [reflexivity|].
  cbn. do 2 apply perm_skip.
  apply (Permutation_cons_app
           [("data", PData [a; b; c]); ("metadata", PMetadata metadata)]
           [("timestamp", PString (now w))]).
  apply Permutation_refl.
Qed.

(* ===================================================================== *)
(** ** [asyncHandler] *)
(* ===================================================================== *)

Section AsyncHandlerFacts.
Variable requestHandler : AsyncController.
Variables (req : Request) (res : Response) (next : NextFunction) (w : World).

(** What one call of the wrapped controller does, by the completion of
    the controller's own call. *)
Lemma asyncHandler_run :
  asyncHandler requestHandler req res next w
  = let o := requestHandler req res next w in
    match result o with
    | Thrown e => mkOutcome (log o) (floating o) (Thrown e)
    | Returned p =>
        mkOutcome (log o)
          (floating o ++ Promise.deferred p
             ++ match Promise.settled p with
                | Promise.Rejected reason => trace (next (Some reason) w)
                | _ => []
                end)
          (Returned tt)
    end.
Proof.
  unfold asyncHandler. cbn. unfold bind_.
  destruct (requestHandler req res next w) as [l f [p|e]]; cbn; [|reflexivity].
  rewrite !app_nil_r.
  destruct (Promise.settled p); cbn; rewrite ?app_nil_r; reflexivity.
Qed.

Lemma unwrapped_run :
  unwrapped requestHandler req res next w
  = let o := requestHandler req res next w in
    match result o with
    | Thrown e => mkOutcome (log o) (floating o) (Thrown e)
    | Returned p =>
        mkOutcome (log o) (floating o ++ Promise.deferred p) (Returned tt)
    end.
Proof.
  unfold unwrapped. cbn. unfold bind_.
  destruct (requestHandler req res next w) as [l f [p|e]]; cbn; [|reflexivity].
  rewrite !app_nil_r. reflexivity.
Qed.

(** A controller call that throws takes the wrapper's call with it: the
    [catch] reaction is never installed and [next] is not called. *)
Lemma asyncHandler_sync_throw_escapes e :
  result (requestHandler req res next w) = Thrown e ->
  asyncHandler requestHandler req res next w
  = unwrapped requestHandler req res next w
  /\ result (asyncHandler requestHandler req res next w) = Thrown e.
Proof.
  intros H. rewrite asyncHandler_run, unwrapped_run. cbn. rewrite H.
  split; reflexivity.
Qed.

End AsyncHandlerFacts.

(** An [async] controller whose body throws before its first [await]:
    the call returns a rejected promise and the wrapper calls [next] with
    the reason, once. *)
Lemma asyncHandler_async_sync_throw
    (body : Request -> Response -> NextFunction -> Express Promise.t)
    req res w e :
  result (body req res express_next w) = Thrown e ->
  let o := body req res express_next w in
  asyncHandler (fun req res next => async (body req res next))
               req res express_next w
  = mkOutcome (log o) (floating o ++ [NextCall (Some e)]) (Returned tt).
Proof.
  intros H o. rewrite asyncHandler_run. cbn. unfold async. fold o.
  unfold o. rewrite H. reflexivity.
Qed.

(** C1, on the code.  The controller [(req, res, next) => { throw new
    Error('boom'); }] throws before any suspension; the wrapped controller
    then calls [next] zero times: its call makes nothing observable and
    throws the same error to its own caller.  (With the same body in an
    [async] function the wrapper does call [next] with the error, once.) *)
Theorem asyncHandler_plain_throw_not_forwarded :
  forall (req : Request) (res : Response) (w : World),
    trace (asyncHandler throwing_controller req res express_next w) = []
    /\ result (asyncHandler throwing_controller req res express_next w)
       = Thrown (ApiError.Error "boom")
    /\ asyncHandler async_throwing_controller req res express_next w
       = mkOutcome [] [NextCall (Some (ApiError.Error "boom"))] (Returned tt).
Proof.
  intros req res w. repeat split.
Qed.

(** C4. One call of the wrapped controller makes observable what the
    controller makes observable on its own, followed by the wrapper's
    forwards [fwd].  [fwd] is the single call [next(e)] exactly when the
    controller returned a promise that rejects with [e]; it is empty when
    the returned promise is fulfilled; in every case it is empty or one
    call of [next], never more and never a response write. *)
Theorem asyncHandler_forwards_iff_rejected :
  forall (h : AsyncController) (req : Request) (res : Response) (w : World),
    let o := h req res express_next w in
    exists fwd : list Event,
      trace (asyncHandler h req res express_next w)
      = trace (unwrapped h req res express_next w) ++ fwd
      /\ (forall e,
            fwd = [NextCall (Some e)]
            <-> exists p, result o = Returned p
                          /\ Promise.settled p = Promise.Rejected e)
      /\ (forall p, result o = Returned p ->
                    Promise.settled p = Promise.Fulfilled -> fwd = [])
      /\ (fwd = [] \/ exists e, fwd = [NextCall (Some e)])
      /\ (List.length fwd <= 1)%nat.
Proof.
  intros h req res w o.
  rewrite asyncHandler_run, unwrapped_run. fold o. cbn zeta.
  destruct (result o) as [p|e] eqn:Hres.
  - destruct (Promise.settled p) as [|reason|] eqn:Hset.
    + exists []. unfold trace; cbn. rewrite !app_nil_r. split; [reflexivity|].
      split; [|split; [|split]].
      * intros e. split; [discriminate|].
        intros (p' & Hp' & Hrej). congruence.
      * reflexivity.
      * left; reflexivity.
      * cbn. lia.
    + exists [NextCall (Some reason)]. unfold trace; cbn.
      split; [rewrite !app_assoc; reflexivity|].
      split; [|split; [|split]].
      * intros e. split.
        -- intros Heq. inversion Heq; subst. exists p. split; [reflexivity|exact Hset].
        -- intros (p' & Hp' & Hrej). congruence.
      * intros p' Hp' Hful. congruence.
      * right. exists reason. reflexivity.
      * cbn. lia.
    + exists []. unfold trace; cbn. rewrite !app_nil_r. split; [reflexivity|].
      split; [|split; [|split]].
      * intros e. split; [discriminate|].
        intros (p' & Hp' & Hrej). congruence.
      * reflexivity.
      * left; reflexivity.
      * cbn. lia.
  - exists []. unfold trace; cbn. rewrite !app_nil_r. split; [reflexivity|].
    split; [|split; [|split]].
    + intros e'. split; [discriminate|].
      intros (p' & Hp' & _). discriminate Hp'.
    + reflexivity.
    + left; reflexivity.
    + cbn. lia.
Qed.

Lemma asyncHandler_forwards_iff_rejected_witness :
  trace (healthCheck (mkRequest VNull) express_res express_next
           (mkWorld "2025-08-20T07:28:00.000Z" "at handler" sample_digits))
  = trace (unwrapped healthCheck_controller (mkRequest VNull) express_res
             express_next (mkWorld "2025-08-20T07:28:00.000Z" "at handler" sample_digits))
  /\ trace (asyncHandler async_throwing_controller (mkRequest VNull) express_res
              express_next (mkWorld "2025-08-20T07:28:00.000Z" "at handler" sample_digits))
     = trace (unwrapped async_throwing_controller (mkRequest VNull) express_res
                express_next (mkWorld "2025-08-20T07:28:00.000Z" "at handler" sample_digits))
       ++ [NextCall (Some (ApiError.Error "boom"))].
Proof.
  split.
  - destruct (asyncHandler_forwards_iff_rejected healthCheck_controller
                (mkRequest VNull) express_res
                (mkWorld "2025-08-20T07:28:00.000Z" "at handler" sample_digits))
      as (fwd & Htrace & _ & Hful & _).
    unfold healthCheck. rewrite Htrace.
    rewrite (Hful Promise.fulfilled eq_refl eq_refl). apply app_nil_r.
  - destruct (asyncHandler_forwards_iff_rejected async_throwing_controller
                (mkRequest VNull) express_res
                (mkWorld "2025-08-20T07:28:00.000Z" "at handler" sample_digits))
      as (fwd & Htrace & Hrej & _).
    rewrite Htrace. f_equal. apply Hrej.
    exists (Promise.rejected (ApiError.Error "boom")). split; reflexivity.
Defined.

(* ===================================================================== *)
(** ** More on the envelopes *)
(* ===================================================================== *)

(** X1. None of the seven factories throws, whatever it is given.  Each
    builds an error of its own status and machine code, with the message
    passed or else its default ([notFound] appends " not found" to the
    resource name), and the error serializes with that status, code and
    message. *)
Theorem ApiError_factories_kinds :
  forall (Ev : Type) (message : option string)
         (errors : option (list ErrorDetail.t)) (w : World),
    builds_kind (ApiError.badRequest (Ev:=Ev) message errors) w
                400 "BAD_REQUEST" (or_default message "Bad Request")
    /\ builds_kind (ApiError.unauthorized (Ev:=Ev) message) w
                   401 "UNAUTHORIZED" (or_default message "Unauthorized access")
    /\ builds_kind (ApiError.forbidden (Ev:=Ev) message) w
                   403 "FORBIDDEN" (or_default message "Access forbidden")
    /\ builds_kind (ApiError.notFound (Ev:=Ev) message) w
                   404 "NOT_FOUND"
                   (or_default message "Resource" ++ " not found")%string
    /\ builds_kind (ApiError.conflict (Ev:=Ev) message) w
                   409 "CONFLICT" (or_default message "Resource conflict")
    /\ builds_kind (ApiError.validation (Ev:=Ev) message errors) w
                   422 "VALIDATION_ERROR" (or_default message "Validation failed")
    /\ builds_kind (ApiError.internal (Ev:=Ev) message) w
                   500 "INTERNAL_ERROR"
                   (or_default message "Internal server error").
Proof.
  intros Ev message errors w. unfold builds_kind.
  repeat split; eexists;
    (split; [reflexivity|]; repeat (split; [reflexivity|]);
     eexists; repeat (split; [reflexivity|]); reflexivity).
Qed.

(** X2. The [stack] argument of the constructor is kept only when it is a
    non-empty string; when it is left out or is the empty string, the
    trace captured at construction is stored instead. *)
Theorem ApiError_stack_kept_or_captured :
  forall (Ev : Type) statusCode message errors (stack code : option string)
         (w : World) (e : ApiError.t),
    yields (ApiError.constructor (Ev:=Ev) statusCode message errors stack code) w e ->
    (forall s, stack = Some s -> s <> "" -> ApiError.stack e = s)
    /\ (stack = None \/ stack = Some "" -> ApiError.stack e = stackTrace w).
Proof.
  intros Ev statusCode message errors stack code w e Hy.
  apply ApiError_constructor_yields_inv in Hy. destruct Hy as [_ He]. subst e.
  cbn. split.
  - intros s Hs Hne. subst stack. apply truthy_string_spec in Hne.
    rewrite Hne. reflexivity.
  - intros [Hs|Hs]; subst stack; reflexivity.
Qed.

Lemma ApiError_stack_kept_or_captured_witness :
  ApiError.stack
    (ApiError_built (mkWorld "2025-08-20T07:28:00.000Z" "at handler" sample_digits)
       409 (Some "Email already exists") (Some []) (Some "") (Some "EMAIL_DUPLICATE"))
  = "at handler".
Proof.
  apply (proj2 (@ApiError_stack_kept_or_captured
                  Event 409 (Some "Email already exists") (Some []) (Some "")
                  (Some "EMAIL_DUPLICATE")
                  (mkWorld "2025-08-20T07:28:00.000Z" "at handler" sample_digits) _ eq_refl)).
  right. reflexivity.
Defined.

Lemma ApiError_toJSON_cases {T} (e : ApiError.t) :
  let fixed1 : WireObject T :=
    [ ("success", PBool (ApiError.success e));
      ("statusCode", PNumber (ApiError.statusCode e));
      ("message", PString (ApiError.message e));
      ("data", PNull);
      ("errors", PErrors (ApiError.errors e)) ] in
  let ts : WireObject T := [ ("timestamp", PString (ApiError.timestamp e)) ] in
  forall o,
    o = fixed1
        ++ spread_if truthy_string (ApiError.code e) "code" PString
        ++ ts
        ++ spread_if truthy_string (ApiError.correlationId e) "correlationId" PString ->
    (exists c i, o = fixed1 ++ [("code", PString c)] ++ ts
                       ++ [("correlationId", PString i)])
    \/ (exists c, o = fixed1 ++ [("code", PString c)] ++ ts)
    \/ (exists i, o = fixed1 ++ ts ++ [("correlationId", PString i)])
    \/ o = fixed1 ++ ts.
Proof.
  intros fixed1 ts o Ho. subst o. unfold spread_if.
  destruct (ApiError.code e) as [c|];
    [destruct (truthy_string c)|];
    (destruct (ApiError.correlationId e) as [i|];
     [destruct (truthy_string i)|]); cbn;
    eauto 6.
Qed.

(** X3. The object an error serializes to has no key twice, has no key
    besides the eight of the wire shape (so neither [stack] nor [name]
    ever leaves the process this way), and gives back under [success],
    [statusCode], [message], [errors] and [timestamp] the fields of the
    error. *)
Theorem ApiError_toJSON_shape :
  forall (Ev T : Type) (e : ApiError.t) (w : World),
    exists o : WireObject T,
      yields (ApiError.toJSON (Ev:=Ev) e) w o
      /\ NoDup (keys o)
      /\ (forall k, In k (keys o) ->
            In k [ "success"; "statusCode"; "message"; "data"; "errors";
                   "code"; "timestamp"; "correlationId" ])
      /\ ~ In "stack" (keys o)
      /\ ~ In "name" (keys o)
      /\ get "success" o = Some (PBool (ApiError.success e))
      /\ get "statusCode" o = Some (PNumber (ApiError.statusCode e))
      /\ get "message" o = Some (PString (ApiError.message e))
      /\ get "data" o = Some PNull
      /\ get "errors" o = Some (PErrors (ApiError.errors e))
      /\ get "timestamp" o = Some (PString (ApiError.timestamp e)).
Proof.
  intros Ev T e w. eexists. split; [apply ApiError_toJSON_yields|].
  match goal with |- NoDup (keys ?o) /\ _ =>
    destruct (ApiError_toJSON_cases (T:=T) e (o:=o) eq_refl)
      as [(c & i & Ho)|[(c & Ho)|[(i & Ho)|Ho]]]; rewrite Ho
  end; cbn;
    (split; [repeat constructor; cbn; intuition discriminate|]);
    (split; [intros k Hk; intuition (subst; auto 10)|]);
    (split; [intuition discriminate|]);
    (split; [intuition discriminate|]);
    repeat split.
Qed.

(** X4. What each constructor accepts.  The response constructor accepts
    [NaN] and the numbers from 200 up to, not including, 400, and nothing
    else; the error constructor accepts [NaN] and the numbers of
    [400,599], and nothing else.  [NaN] is the one number both accept.
    On the integers they accept exactly 200 to 399 and 400 to 599. *)
Theorem constructors_partition_status_codes :
  forall (Ev T : Type) (statusCode : number) (data : T) (message : option string)
         (metadata : option ResponseMetadata.t)
         (errors : option (list ErrorDetail.t)) (stack code : option string)
         (w : World),
    let accepted_as_response :=
      exists r, yields (ApiResponse.constructor (Ev:=Ev) statusCode data
                          message metadata) w r
                /\ ApiResponse.success r = true
                /\ ApiResponse.statusCode r = statusCode in
    let accepted_as_error :=
      exists e, yields (ApiError.constructor (Ev:=Ev) statusCode message errors
                          stack code) w e
                /\ ApiError.success e = false
                /\ ApiError.statusCode e = statusCode in
    (accepted_as_response <-> statusCode = NaN \/ from_below 200 400 statusCode)
    /\ (accepted_as_error <-> statusCode = NaN \/ between 400 599 statusCode)
    /\ (accepted_as_response /\ accepted_as_error <-> statusCode = NaN)
    /\ (forall z : Z, statusCode = of_Z z ->
          (accepted_as_response <-> (200 <= z <= 399)%Z)
          /\ (accepted_as_error <-> (400 <= z <= 599)%Z)).
Proof.
  intros Ev T statusCode data message metadata errors stack code w resp err.
  assert (Hresp : resp <-> statusCode = NaN \/ from_below 200 400 statusCode).
  { subst resp. rewrite <- ApiResponse_guard_spec. split.
    - intros (r & Hy & _). apply ApiResponse_constructor_yields_inv in Hy.
      destruct Hy as [Hg _]. exact Hg.
    - intros Hg. eexists.
      split; [apply ApiResponse_constructor_accepts; exact Hg|].
      split; reflexivity. }
  assert (Herr : err <-> statusCode = NaN \/ between 400 599 statusCode).
  { subst err. rewrite <- ApiError_guard_spec. split.
    - intros (e & Hy & _). apply ApiError_constructor_yields_inv in Hy.
      destruct Hy as [Hg _]. exact Hg.
    - intros Hg. eexists.
      split; [apply ApiError_constructor_accepts; exact Hg|].
      split; reflexivity. }
  split; [exact Hresp|]. split; [exact Herr|]. split.
  - rewrite Hresp, Herr. split.
    + intros [[Hn|(q & Hq & _ & Hlt)] [Hn'|(q' & Hq' & Hle & _)]];
        try assumption.
      rewrite Hq in Hq'. inversion Hq'; subst q'. exfalso.
      exact (Qlt_not_le _ _ Hlt Hle).
    + intros Hn. split; left; exact Hn.
  - intros z Hz. rewrite Hresp, Herr. subst statusCode.
    rewrite from_below_of_Z, between_of_Z. split; split.
    + intros [H|H]; [discriminate H|lia].
    + intros H. right. lia.
    + intros [H|H]; [discriminate H|exact H].
    + intros H. right. exact H.
Qed.

Lemma constructors_partition_status_codes_witness :
  (exists r, yields (ApiResponse.constructor (Ev:=Event) 204 VNull None None)
               (mkWorld "2025-08-20T07:28:00.000Z" "at handler" sample_digits) r
             /\ ApiResponse.success r = true
             /\ ApiResponse.statusCode r = 204)
  /\ ~ (exists e, yields (ApiError.constructor (Ev:=Event) 204 None None None None)
                    (mkWorld "2025-08-20T07:28:00.000Z" "at handler" sample_digits) e
                  /\ ApiError.success e = false
                  /\ ApiError.statusCode e = 204).
Proof.
  destruct (proj2 (proj2 (proj2 (constructors_partition_status_codes
                                   Event 204 VNull None None None None None
                                   (mkWorld "2025-08-20T07:28:00.000Z" "at handler"
                                      sample_digits))))
              204%Z eq_refl) as [Hresp Herr].
  split.
  - apply Hresp. lia.
  - intros H. apply Herr in H. lia.
Defined.

(** X5. Serialization follows the assignments to [correlationId].  On an
    error that carries none, assigning a non-empty id adds the
    [correlationId] property, with that id, after all the others and
    changes no other property; assigning the empty string serializes like
    assigning [undefined]; and of two assignments in a row only the
    second shows. *)
Theorem correlationId_serialization :
  forall (Ev T : Type) (e : ApiError.t) (w : World),
    (forall id : string,
        ApiError.correlationId e = None -> id <> "" ->
        exists o : WireObject T,
          yields (ApiError.toJSON (Ev:=Ev) e) w o
          /\ yields (ApiError.toJSON (Ev:=Ev)
                       (ApiError.set_correlationId (Some id) e)) w
                    (o ++ [("correlationId", PString id)]))
    /\ ApiError.toJSON (Ev:=Ev) (T:=T) (ApiError.set_correlationId (Some "") e) w
       = ApiError.toJSON (Ev:=Ev) (T:=T) (ApiError.set_correlationId None e) w
    /\ (forall v v' : option string,
          ApiError.toJSON (Ev:=Ev) (T:=T)
            (ApiError.set_correlationId v (ApiError.set_correlationId v' e)) w
          = ApiError.toJSON (Ev:=Ev) (T:=T) (ApiError.set_correlationId v e) w).
Proof.
  intros Ev T e w. split; [|split].
  - intros id Hnone Hid. eexists. split; [apply ApiError_toJSON_yields|].
    unfold yields, ApiError.toJSON. cbn. rewrite Hnone.
    apply truthy_string_spec in Hid. destruct (ApiError.data e).
    cbn. rewrite Hid. unfold ret_. rewrite <- app_assoc. reflexivity.
  - reflexivity.
  - intros v v'. reflexivity.
Qed.

Lemma correlationId_serialization_witness :
  exists o : WireObject Value,
    yields (ApiError.toJSON (Ev:=Event)
              (ApiError_built (mkWorld "2025-08-20T07:28:00.000Z" "at handler" sample_digits)
                 404 (Some "Project not found") None None None))
           (mkWorld "2031-01-01T00:00:00.000Z" "at reporter" sample_digits) o
    /\ yields (ApiError.toJSON (Ev:=Event)
                 (ApiError.set_correlationId (Some "req-1")
                    (ApiError_built (mkWorld "2025-08-20T07:28:00.000Z" "at handler" sample_digits)
                       404 (Some "Project not found") None None None)))
              (mkWorld "2031-01-01T00:00:00.000Z" "at reporter" sample_digits)
              (o ++ [("correlationId", PString "req-1")]).
Proof.
  apply (proj1 (correlationId_serialization Event Value
                  (ApiError_built (mkWorld "2025-08-20T07:28:00.000Z" "at handler" sample_digits)
                     404 (Some "Project not found") None None None)
                  (mkWorld "2031-01-01T00:00:00.000Z" "at reporter" sample_digits))
           "req-1").
  - reflexivity.
  - discriminate.
Defined.

(** X6. None of the response factories throws.  [ok], [created] and
    [noContent] build status 200, 201 and 204 with the message passed or
    their default, and serialize without a [metadata] key; [paginated]
    builds status 200 and always serializes with the [metadata] key
    holding the object it was given, also when that object has no
    property set. *)
Theorem ApiResponse_factories :
  forall (Ev T : Type) (data : T) (items : list T)
         (metadata : ResponseMetadata.t) (message : option string) (w : World),
    (exists r o,
        yields (ApiResponse.ok (Ev:=Ev) data message) w r
        /\ ApiResponse.statusCode r = 200
        /\ ApiResponse.message r = or_default message "Success"
        /\ yields (ApiResponse.toJSON (Ev:=Ev) r) w o
        /\ ~ In "metadata" (keys o) /\ get "data" o = Some (PData data))
    /\ (exists r o,
          yields (ApiResponse.created (Ev:=Ev) data message) w r
          /\ ApiResponse.statusCode r = 201
          /\ ApiResponse.message r
             = or_default message "Resource created successfully"
          /\ yields (ApiResponse.toJSON (Ev:=Ev) r) w o
          /\ ~ In "metadata" (keys o) /\ get "data" o = Some (PData data))
    /\ (exists r o,
          yields (ApiResponse.noContent (Ev:=Ev) message) w r
          /\ ApiResponse.statusCode r = 204
          /\ ApiResponse.message r
             = or_default message "Operation completed successfully"
          /\ yields (ApiResponse.toJSON (Ev:=Ev) r) w o
          /\ ~ In "metadata" (keys o) /\ get "data" o = Some (PData null))
    /\ (exists r o,
          yields (ApiResponse.paginated (Ev:=Ev) items metadata message) w r
          /\ ApiResponse.statusCode r = 200
          /\ ApiResponse.message r
             = or_default message "Data retrieved successfully"
          /\ yields (ApiResponse.toJSON (Ev:=Ev) r) w o
          /\ get "metadata" o = Some (PMetadata metadata)
          /\ get "data" o = Some (PData items)).
Proof.
  intros Ev T data items metadata message w.
  split; [|split; [|split]]; eexists; eexists;
    (split; [reflexivity|]); (split; [reflexivity|]); (split; [reflexivity|]);
    (split; [reflexivity|]); cbn; (split; [|reflexivity]);
    try reflexivity; intuition discriminate.
Qed.

(** X7. The object a response serializes to has no key twice, has no key
    besides the six of the wire shape, and gives back under [success],
    [statusCode], [message], [data], [metadata] and [timestamp] the
    fields of the response; [metadata] is a key exactly when the field is
    defined. *)
Theorem ApiResponse_toJSON_shape :
  forall (Ev T : Type) (r : ApiResponse.t T) (w : World),
    exists o : WireObject T,
      yields (ApiResponse.toJSON (Ev:=Ev) r) w o
      /\ NoDup (keys o)
      /\ (forall k, In k (keys o) ->
            In k [ "success"; "statusCode"; "message"; "data"; "metadata";
                   "timestamp" ])
      /\ (In "metadata" (keys o) <-> ApiResponse.metadata r <> None)
      /\ get "success" o = Some (PBool (ApiResponse.success r))
      /\ get "statusCode" o = Some (PNumber (ApiResponse.statusCode r))
      /\ get "message" o = Some (PString (ApiResponse.message r))
      /\ get "data" o = Some (PData (ApiResponse.data r))
      /\ get "metadata" o = option_map PMetadata (ApiResponse.metadata r)
      /\ get "timestamp" o = Some (PString (ApiResponse.timestamp r)).
Proof.
  intros Ev T r w. eexists. split; [apply ApiResponse_toJSON_yields|].
  destruct (ApiResponse.metadata r) as [m|]; cbn;
    (split; [repeat constructor; cbn; intuition discriminate|]);
    (split; [intros k Hk; intuition (subst; auto 10)|]);
    (split; [split; [intros; try discriminate; intuition discriminate
                    | intros H; try (exfalso; apply H; reflexivity); auto 10]|]);
    repeat split.
Qed.

(* ===================================================================== *)
(** ** More on [asyncHandler] *)
(* ===================================================================== *)

(** X8. The wrapper adds nothing to the synchronous part of a call and
    never throws on its own: the wrapped controller logs synchronously
    what the controller logs, throws exactly when the controller's own
    call throws (and then the same value), and returns exactly when the
    controller returns its promise; [next] is reached only from the
    reaction to that promise. *)
Theorem asyncHandler_synchronous_part :
  forall (h : AsyncController) (req : Request) (res : Response)
         (next : NextFunction) (w : World),
    let o := h req res next w in
    let r := asyncHandler h req res next w in
    log r = log o
    /\ (forall e, result r = Thrown e <-> result o = Thrown e)
    /\ (result r = Returned tt <-> exists p, result o = Returned p).
Proof.
  intros h req res next w o r. subst r. rewrite asyncHandler_run. fold o.
  cbn zeta. destruct (result o) as [p|e0]; cbn.
  - split; [reflexivity|]. split.
    + intros e. split; discriminate.
    + split; [intros _; exists p; reflexivity|reflexivity].
  - split; [reflexivity|]. split.
    + intros e. split; intros H; inversion H; reflexivity.
    + split; [discriminate|]. intros (p & Hp). discriminate Hp.
Qed.

(** X9. Wrapping an [async] function gives a handler that never throws:
    whatever the body does, the call returns.  When the body throws
    before its first [await], the reaction calls [next] with what was
    thrown, after everything the body made observable; when the body's
    promise is fulfilled or never settles, [next] is not called by the
    wrapper. *)
Theorem asyncHandler_of_async_function :
  forall (body : AsyncController) (req : Request) (res : Response)
         (next : NextFunction) (w : World),
    let o := body req res next w in
    let r := asyncHandler (fun req res next => async (body req res next))
                          req res next w in
    result r = Returned tt
    /\ log r = log o
    /\ (forall e, result o = Thrown e ->
          floating r = floating o ++ trace (next (Some e) w))
    /\ (forall p, result o = Returned p ->
          (forall e, Promise.settled p <> Promise.Rejected e) ->
          floating r = floating o ++ Promise.deferred p).
Proof.
  intros body req res next w o r. subst r. rewrite asyncHandler_run.
  unfold async. fold o. cbn zeta.
  destruct (result o) as [p|e0] eqn:Hres.
  - rewrite Hres. repeat split.
    + intros e He. discriminate He.
    + intros p' Hp' Hnot. inversion Hp'; subst p'. cbn.
      destruct (Promise.settled p) as [|reason|].
      * rewrite app_nil_r. reflexivity.
      * exfalso. apply (Hnot reason). reflexivity.
      * rewrite app_nil_r. reflexivity.
  - cbn. repeat split.
    + intros e He. inversion He; subst. reflexivity.
    + intros p Hp. discriminate Hp.
Qed.

Lemma asyncHandler_of_async_function_witness :
  floating (asyncHandler
              (fun req res next =>
                 async (throwing_controller req res next))
              (mkRequest VNull) express_res express_next
              (mkWorld "2025-08-20T07:28:00.000Z" "at handler" sample_digits))
  = [NextCall (Some (ApiError.Error "boom"))].
Proof.
  apply (proj1 (proj2 (proj2 (asyncHandler_of_async_function
                                throwing_controller (mkRequest VNull) express_res
                                express_next
                                (mkWorld "2025-08-20T07:28:00.000Z" "at handler" sample_digits))))
           (ApiError.Error "boom")).
  reflexivity.
Defined.

(** X10. When the controller's promise rejects, the reaction runs [next]
    on the reason once, whatever [next] is: the wrapped controller makes
    observable what the controller does, then what that one call of
    [next] does.  If [next] itself throws, nothing more follows and the
    wrapper's call has returned all the same. *)
Theorem asyncHandler_next_runs_once :
  forall (h : AsyncController) (req : Request) (res : Response)
         (next : NextFunction) (w : World) (p : Promise.t)
         (reason : ApiError.Exception),
    result (h req res next w) = Returned p ->
    Promise.settled p = Promise.Rejected reason ->
    trace (asyncHandler h req res next w)
    = trace (unwrapped h req res next w) ++ trace (next (Some reason) w)
    /\ result (asyncHandler h req res next w) = Returned tt.
Proof.
  intros h req res next w p reason Hres Hset.
  rewrite asyncHandler_run, unwrapped_run. cbn zeta. rewrite Hres, Hset.
  unfold trace. cbn. rewrite !app_assoc. split; reflexivity.
Qed.

Lemma asyncHandler_next_runs_once_witness :
  trace (asyncHandler async_throwing_controller (mkRequest VNull) express_res
           (fun err => emit (NextCall err) ;;
                       throw (ApiError.Error "reporter failed"))
           (mkWorld "2025-08-20T07:28:00.000Z" "at handler" sample_digits))
  = [NextCall (Some (ApiError.Error "boom"))]
  /\ result (asyncHandler async_throwing_controller (mkRequest VNull) express_res
               (fun err => emit (NextCall err) ;;
                           throw (ApiError.Error "reporter failed"))
               (mkWorld "2025-08-20T07:28:00.000Z" "at handler" sample_digits))
     = Returned tt.
Proof.
  exact (asyncHandler_next_runs_once
           async_throwing_controller (mkRequest VNull) express_res
           (fun err => emit (NextCall err) ;;
                       throw (ApiError.Error "reporter failed"))
           (mkWorld "2025-08-20T07:28:00.000Z" "at handler" sample_digits)
           (p := Promise.rejected (ApiError.Error "boom"))
           (reason := ApiError.Error "boom")
           eq_refl eq_refl).
Defined.

(** X11. For every request, [healthCheck] writes one response, status 200
    with the serialized envelope [success: true], [statusCode: 200],
    [message: "Success"], [data: { message: "Server is running." }] and
    the current time, and does not call [next], whatever [next] is.  With
    any response object at all, its call returns: it never throws. *)
Theorem healthCheck_writes_one_response :
  forall (req : Request) (next : NextFunction) (w : World),
    healthCheck req express_res next w
    = mkOutcome
        [ ResWrite 200
            [ ("success", PBool true);
              ("statusCode", PNumber 200);
              ("message", PString "Success");
              ("data", PData (VObject [("message", VString "Server is running.")]));
              ("timestamp", PString (now w)) ] ]
        [] (Returned tt)
    /\ forall res : Response, result (healthCheck req res next w) = Returned tt.
Proof.
  intros req next w. split; [reflexivity|].
  intros res. unfold healthCheck.
  apply (proj1 (asyncHandler_of_async_function
                  (fun req res _ =>
                     r <- ApiResponse.constructor 200
                            (VObject [("message", VString "Server is running.")])
                            None None ;;
                     status_json res 200 r ;;
                     ret Promise.fulfilled)
                  req res next w)).
Qed.

(** X12. [throw new ApiError(...)] in a wrapped [async] controller, as the
    class documents its use.  When the constructor accepts the status
    code (a number of [400,599], or [NaN]) the wrapper hands [next] that
    very error, once, and nothing is written to the response.  With any
    other status code it is the constructor that throws, so what [next]
    receives is the plain "Invalid status code" [Error], not an
    [ApiError]. *)
Theorem thrown_ApiError_reaches_next :
  forall (statusCode : number) (message : option string)
         (errors : option (list ErrorDetail.t)) (stack code : option string)
         (req : Request) (res : Response) (w : World),
    let controller : AsyncController :=
      fun _ _ _ =>
        async (e <- ApiError.constructor statusCode message errors stack code ;;
               throw (ApiError.Instance e)) in
    (between 400 599 statusCode \/ statusCode = NaN ->
       asyncHandler controller req res express_next w
       = mkOutcome []
           [NextCall (Some (ApiError.Instance
                              (ApiError_built w statusCode message errors
                                 stack code)))]
           (Returned tt))
    /\ (~ between 400 599 statusCode -> statusCode <> NaN ->
         asyncHandler controller req res express_next w
         = mkOutcome []
             [NextCall (Some (ApiError.Error
                                ("Invalid status code: "
                                   ++ Number_toString w statusCode
                                   ++ ". Must be between 400-599")%string))]
             (Returned tt)).
Proof.
  intros statusCode message errors stack code req res w controller.
  subst controller. split.
  - intros Hacc.
    assert (Hg : (Number_lt statusCode 400 || Number_gt statusCode 599)%bool = false)
      by (apply ApiError_guard_spec; tauto).
    rewrite asyncHandler_run. unfold async.
    rewrite (bind_yields (fun e => throw (A:=Promise.t) (ApiError.Instance e))
               (@ApiError_constructor_accepts Event statusCode message errors
                  stack code w Hg)).
    reflexivity.
  - intros Hout Hnan.
    assert (Hg : (Number_lt statusCode 400 || Number_gt statusCode 599)%bool = true).
    { destruct (Number_lt statusCode 400 || Number_gt statusCode 599)%bool eqn:Hg;
        [reflexivity|].
      apply ApiError_guard_spec in Hg. tauto. }
    rewrite asyncHandler_run. unfold async.
    pose proof (bind_fails_with
                  (fun e => throw (A:=Promise.t) (ApiError.Instance e))
                  (@ApiError_constructor_rejects Event statusCode message errors
                     stack code w Hg)) as Hf.
    unfold fails_with in Hf. rewrite Hf. reflexivity.
Qed.

Lemma thrown_ApiError_reaches_next_witness :
  asyncHandler
    (fun _ _ _ =>
       async (e <- ApiError.constructor 404 (Some "Project not found")
                     None None None ;;
              throw (ApiError.Instance e)))
    (mkRequest VNull) express_res express_next
    (mkWorld "2025-08-20T07:28:00.000Z" "at handler" sample_digits)
  = mkOutcome []
      [NextCall (Some (ApiError.Instance
                         (ApiError_built
                            (mkWorld "2025-08-20T07:28:00.000Z" "at handler"
                               sample_digits)
                            404 (Some "Project not found") None None None)))]
      (Returned tt)
  /\ asyncHandler
       (fun _ _ _ =>
          async (e <- ApiError.constructor 200 (Some "Project not found")
                        None None None ;;
                 throw (ApiError.Instance e)))
       (mkRequest VNull) express_res express_next
       (mkWorld "2025-08-20T07:28:00.000Z" "at handler" sample_digits)
     = mkOutcome []
         [NextCall (Some (ApiError.Error
                            "Invalid status code: 200. Must be between 400-599"))]
         (Returned tt).
Proof.
  split.
  - apply (proj1 (thrown_ApiError_reaches_next 404 (Some "Project not found")
                    None None None (mkRequest VNull) express_res
                    (mkWorld "2025-08-20T07:28:00.000Z" "at handler" sample_digits))).
    left. apply between_of_Z. lia.
  - apply (proj2 (thrown_ApiError_reaches_next 200 (Some "Project not found")
                    None None None (mkRequest VNull) express_res
                    (mkWorld "2025-08-20T07:28:00.000Z" "at handler" sample_digits))).
    + intros H. apply between_of_Z in H. lia.
    + discriminate.
Defined.

(** X13. A wrapped [async] controller that begins by building its
    envelope, [const r = new ApiResponse(...)], and goes on with [r].
    When the constructor refuses the status code (any number other than
    [NaN] that is below 200 or at least 400), nothing of what the
    controller would go on to do happens: no response is written, and
    [next] receives the "Invalid success status code" [Error], once.
    When the constructor accepts it, the controller goes on with the
    envelope built. *)
Theorem rejected_ApiResponse_reaches_next :
  forall (statusCode : number) (data : Value) (message : option string)
         (metadata : option ResponseMetadata.t)
         (rest : ApiResponse.t Value -> AsyncController)
         (req : Request) (res : Response) (w : World),
    let controller : AsyncController :=
      fun req res next =>
        async (r <- ApiResponse.constructor statusCode data message metadata ;;
               rest r req res next) in
    (~ from_below 200 400 statusCode -> statusCode <> NaN ->
       asyncHandler controller req res express_next w
       = mkOutcome []
           [NextCall (Some (ApiError.Error
                              ("Invalid success status code: "
                                 ++ Number_toString w statusCode
                                 ++ ". Must be between 200-399")%string))]
           (Returned tt))
    /\ (from_below 200 400 statusCode \/ statusCode = NaN ->
         asyncHandler controller req res express_next w
         = asyncHandler
             (fun req res next =>
                async (rest (ApiResponse.mk true statusCode data
                               (or_default message "Success") metadata (now w))
                            req res next))
             req res express_next w).
Proof.
  intros statusCode data message metadata rest req res w controller.
  subst controller. split.
  - intros Hout Hnan.
    assert (Hg : (Number_lt statusCode 200 || Number_ge statusCode 400)%bool = true).
    { destruct (Number_lt statusCode 200 || Number_ge statusCode 400)%bool eqn:Hg;
        [reflexivity|].
      apply ApiResponse_guard_spec in Hg. tauto. }
    rewrite !asyncHandler_run. unfold async.
    pose proof (bind_fails_with
                  (fun r => rest r req res express_next)
                  (@ApiResponse_constructor_rejects Event Value statusCode data
                     message metadata w Hg)) as Hf.
    unfold fails_with in Hf. rewrite Hf. reflexivity.
  - intros Hacc.
    assert (Hg : (Number_lt statusCode 200 || Number_ge statusCode 400)%bool = false)
      by (apply ApiResponse_guard_spec; tauto).
    rewrite !asyncHandler_run. unfold async.
    rewrite (bind_yields (fun r => rest r req res express_next)
               (@ApiResponse_constructor_accepts Event Value statusCode data
                  message metadata w Hg)).
    reflexivity.
Qed.

(** The witness is the controller
    [[
    async (req, res) => {
      const r = new ApiResponse(404, { message: 'Server is running.' });
      res.status(404).json(r);
    }
    ]] *)
Lemma rejected_ApiResponse_reaches_next_witness :
  asyncHandler
    (fun req res next =>
       async (r <- ApiResponse.constructor 404
                     (VObject [("message", VString "Server is running.")])
                     None None ;;
              (fun r _ res _ => status_json res 404 r ;; ret Promise.fulfilled)
                r req res next))
    (mkRequest VNull) express_res express_next
    (mkWorld "2025-08-20T07:28:00.000Z" "at handler" sample_digits)
  = mkOutcome []
      [NextCall (Some (ApiError.Error
                         "Invalid success status code: 404. Must be between 200-399"))]
      (Returned tt).
Proof.
  apply (proj1 (rejected_ApiResponse_reaches_next 404
                  (VObject [("message", VString "Server is running.")])
                  None None
                  (fun r _ res _ => status_json res 404 r ;; ret Promise.fulfilled)
                  (mkRequest VNull) express_res
                  (mkWorld "2025-08-20T07:28:00.000Z" "at handler" sample_digits))).
  - intros H. apply from_below_of_Z in H. lia.
  - discriminate.
Defined.

(* ===================================================================== *)
(** ** The CORS origins *)
(* ===================================================================== *)

Section SplitFacts.
Variable sep : ascii.

Lemma split_not_nil s : split sep s <> [].
Proof.
  destruct s as [|c rest]; cbn; [discriminate|].
  destruct (Ascii.eqb c sep); [discriminate|].
  destruct (split sep rest); discriminate.
Qed.

Lemma split_length s :
  List.length (split sep s) = S (occurrences sep s).
Proof.
  induction s as [|c rest IH]; cbn; [reflexivity|].
  destruct (Ascii.eqb c sep); cbn; [rewrite IH; reflexivity|].
  destruct (split sep rest) as [|piece pieces] eqn:Hs; [discriminate IH|].
  exact IH.
Qed.

Lemma split_pieces_free s piece :
  In piece (split sep s) -> occurs sep piece = false.
Proof.
  revert piece. induction s as [|c rest IH]; cbn; intros piece Hin.
  - destruct Hin as [<-|[]]. reflexivity.
  - destruct (Ascii.eqb c sep) eqn:Hc.
    + destruct Hin as [<-|Hin]; [reflexivity|]. apply IH. exact Hin.
    + destruct (split sep rest) as [|piece0 pieces] eqn:Hs.
      * destruct Hin as [<-|[]]. cbn. rewrite Hc. reflexivity.
      * destruct Hin as [<-|Hin].
        -- cbn. rewrite Hc. cbn. apply IH. left. reflexivity.
        -- apply IH. right. exact Hin.
Qed.

Lemma split_of_free x :
  occurs sep x = false -> split sep x = [x].
Proof.
  induction x as [|c rest IH]; cbn; [reflexivity|].
  intros H. apply orb_false_iff in H. destruct H as [Hc Hrest].
  rewrite Hc, (IH Hrest). reflexivity.
Qed.

Lemma split_app_sep x t :
  occurs sep x = false ->
  split sep (x ++ String sep t) = x :: split sep t.
Proof.
  induction x as [|c rest IH]; cbn.
  - intros _. rewrite Ascii.eqb_refl. reflexivity.
  - intros H. apply orb_false_iff in H. destruct H as [Hc Hrest].
    rewrite Hc, (IH Hrest). reflexivity.
Qed.

Lemma split_concat (l : list string) :
  l <> [] ->
  Forall (fun x => occurs sep x = false) l ->
  split sep (String.concat (String sep EmptyString) l) = l.
Proof.
  induction l as [|x l' IH]; [congruence|]. intros _ Hall.
  inversion Hall as [|? ? Hx Hl']; subst.
  destruct l' as [|y l''].
  - cbn. apply split_of_free. exact Hx.
  - change (String.concat (String sep "") (x :: y :: l''))
      with (x ++ String sep (String.concat (String sep "") (y :: l'')))%string.
    rewrite (@split_app_sep x _ Hx), IH; [reflexivity|discriminate|exact Hl'].
Qed.

End SplitFacts.

Lemma occurs_app c (a b : string) :
  occurs c (a ++ b)%string = (occurs c a || occurs c b)%bool.
Proof.
  induction a as [|c' a IH]; cbn; [reflexivity|].
  rewrite IH, orb_assoc. reflexivity.
Qed.

Lemma white_space_has_no_comma s :
  all_white_space s = true -> occurs "," s = false.
Proof.
  induction s as [|c rest IH]; cbn; [reflexivity|].
  intros H. apply andb_true_iff in H. destruct H as [Hc Hrest].
  rewrite (IH Hrest), orb_false_r.
  destruct (Ascii.eqb c ",") eqn:Heq; [|reflexivity].
  apply Ascii.eqb_eq in Heq. subst c. discriminate Hc.
Qed.

Lemma trimStart_white_space b s :
  all_white_space b = true -> trimStart (b ++ s) = trimStart s.
Proof.
  induction b as [|c rest IH]; cbn; [reflexivity|].
  intros H. apply andb_true_iff in H. destruct H as [Hc Hrest].
  rewrite Hc. apply IH. exact Hrest.
Qed.

Lemma trimEnd_all_white_space a :
  all_white_space a = true -> trimEnd a = EmptyString.
Proof.
  induction a as [|c rest IH]; cbn; [reflexivity|].
  intros H. apply andb_true_iff in H. destruct H as [Hc Hrest].
  rewrite (IH Hrest), Hc. reflexivity.
Qed.

Lemma trimEnd_white_space s a :
  all_white_space a = true -> trimEnd (s ++ a) = trimEnd s.
Proof.
  intros Ha. induction s as [|c rest IH]; cbn.
  - apply trimEnd_all_white_space. exact Ha.
  - rewrite IH. reflexivity.
Qed.

Lemma trimStart_first s c :
  first_char (trimStart s) = Some c -> is_white_space c = false.
Proof.
  induction s as [|c' rest IH]; cbn; [discriminate|].
  destruct (is_white_space c') eqn:Hc'; [exact IH|].
  cbn. intros H. inversion H; subst. exact Hc'.
Qed.

Lemma trimEnd_first s c :
  (forall c', first_char s = Some c' -> is_white_space c' = false) ->
  first_char (trimEnd s) = Some c -> is_white_space c = false.
Proof.
  destruct s as [|c' rest]; cbn; [discriminate|].
  intros Hfirst. rewrite (Hfirst c' eq_refl). cbn.
  intros H. inversion H; subst. apply Hfirst. reflexivity.
Qed.

Lemma trimEnd_last s c :
  last_char (trimEnd s) = Some c -> is_white_space c = false.
Proof.
  induction s as [|c' rest IH]; cbn; [discriminate|].
  destruct (trimEnd rest) as [|c'' r] eqn:Hr.
  - cbn. rewrite andb_true_r.
    destruct (is_white_space c') eqn:Hc'; cbn; [discriminate|].
    intros H. inversion H; subst. exact Hc'.
  - cbn. rewrite andb_false_r. exact IH.
Qed.

Lemma trim_trimmed s : trimmed (trim s).
Proof.
  unfold trimmed, trim. split.
  - intros c. apply trimEnd_first. intros c'. apply trimStart_first.
  - intros c. apply trimEnd_last.
Qed.

Lemma trimEnd_of_trimmed s :
  (forall c, last_char s = Some c -> is_white_space c = false) ->
  trimEnd s = s.
Proof.
  induction s as [|c rest IH]; cbn; [reflexivity|].
  intros Hlast. destruct rest as [|c' rest'].
  - cbn. rewrite (Hlast c eq_refl). reflexivity.
  - rewrite (IH Hlast). cbn. rewrite andb_false_r. reflexivity.
Qed.

Lemma trim_of_trimmed s : trimmed s -> trim s = s.
Proof.
  intros [Hfirst Hlast]. unfold trim.
  assert (Hs : trimStart s = s).
  { destruct s as [|c rest]; cbn; [reflexivity|].
    rewrite (Hfirst c eq_refl). reflexivity. }
  rewrite Hs. apply trimEnd_of_trimmed. exact Hlast.
Qed.

Lemma trimStart_all_white_space a :
  all_white_space a = true -> trimStart a = EmptyString.
Proof.
  induction a as [|c rest IH]; cbn; [reflexivity|].
  intros H. apply andb_true_iff in H. destruct H as [Hc Hrest].
  rewrite Hc. apply IH. exact Hrest.
Qed.

Lemma trim_written (p : PaddedOrigin) :
  well_padded p -> trim (written p) = origin p.
Proof.
  intros (Hb & Ha & _ & Ht). unfold trim, written.
  rewrite (@trimStart_white_space (before p) _ Hb).
  destruct Ht as [Hfirst Hlast].
  destruct (origin p) as [|c rest] eqn:Ho.
  - cbn. rewrite (@trimStart_all_white_space (after p) Ha). reflexivity.
  - cbn. rewrite (Hfirst c eq_refl).
    change (String c (rest ++ after p)) with (String c rest ++ after p)%string.
    rewrite (@trimEnd_white_space (String c rest) (after p) Ha).
    apply trimEnd_of_trimmed. exact Hlast.
Qed.

Lemma occurs_trimStart c s :
  occurs c (trimStart s) = true -> occurs c s = true.
Proof.
  induction s as [|c' rest IH]; cbn; [discriminate|].
  destruct (is_white_space c'); [|exact (fun H => H)].
  intros H. rewrite (IH H). apply orb_true_r.
Qed.

Lemma occurs_trimEnd c s :
  occurs c (trimEnd s) = true -> occurs c s = true.
Proof.
  induction s as [|c' rest IH]; cbn; [discriminate|].
  destruct (is_white_space c' && String.eqb (trimEnd rest) "")%bool;
    cbn; [discriminate|].
  intros H. apply orb_true_iff in H. destruct H as [H|H].
  - rewrite H. reflexivity.
  - rewrite (IH H). apply orb_true_r.
Qed.

Lemma trim_keeps_free c s :
  occurs c s = false -> occurs c (trim s) = false.
Proof.
  intros H. destruct (occurs c (trim s)) eqn:Ht; [|reflexivity].
  unfold trim in Ht. apply occurs_trimEnd, occurs_trimStart in Ht. congruence.
Qed.

(** X14. The default origin is used only when [CORS_ORIGIN] is not
    defined.  A defined value always gives its own list, with one entry
    more than it has commas: the empty string gives the one origin [""],
    not the default.  In no case is the list empty. *)
Theorem cors_origin_entries_count :
  cors_origin None = ["http://localhost:3000"]
  /\ (forall s, List.length (cors_origin (Some s)) = S (occurrences "," s))
  /\ cors_origin (Some "") = [""]
  /\ (forall env, cors_origin env <> []).
Proof.
  split; [reflexivity|]. split; [|split; [reflexivity|]].
  - intros s. cbn. rewrite length_map. apply split_length.
  - intros [s|]; cbn; [|discriminate].
    intros H. apply map_eq_nil in H. exact (split_not_nil _ _ H).
Qed.

(** X15. Every origin in the list, from the variable or the default, is
    free of commas and neither starts nor ends with white space. *)
Theorem cors_origin_entries_clean :
  forall (env : option string) (o : string),
    In o (cors_origin env) -> occurs "," o = false /\ trimmed o.
Proof.
  intros [s|] o Hin; cbn in Hin.
  - apply in_map_iff in Hin. destruct Hin as (piece & <- & Hpiece).
    split; [|apply trim_trimmed].
    apply trim_keeps_free. apply (split_pieces_free _ _ _ Hpiece).
  - destruct Hin as [<-|[]]. split; [reflexivity|].
    split; intros c H; inversion H; reflexivity.
Qed.

Lemma cors_origin_entries_clean_witness :
  occurs "," "http://localhost:5173" = false /\ trimmed "http://localhost:5173".
Proof.
  apply (cors_origin_entries_clean
           (Some "http://localhost:3000, http://localhost:5173 ")
           "http://localhost:5173").
  simpl. right. left. reflexivity.
Defined.

(** X16. Reading back a list.  When [CORS_ORIGIN] is a non-empty list of
    origins joined by commas, each origin free of commas and of white
    space at its ends and written with any white space around it, the
    origins read are exactly those of the list, in order. *)
Theorem cors_origin_reads_list :
  forall l : list PaddedOrigin,
    l <> [] ->
    Forall well_padded l ->
    cors_origin (Some (String.concat "," (map written l))) = map origin l.
Proof.
  intros l Hne Hall. cbn.
  rewrite (@split_concat "," (map written l)).
  - rewrite map_map. apply map_ext_in. intros p Hp.
    apply trim_written. rewrite Forall_forall in Hall. apply Hall. exact Hp.
  - destruct l; [congruence|discriminate].
  - apply Forall_map. apply (Forall_impl _ (P:=well_padded)); [|exact Hall].
    intros p (Hb & Ha & Hfree & _). unfold written.
    rewrite !occurs_app, Hfree.
    rewrite (@white_space_has_no_comma (before p) Hb).
    rewrite (@white_space_has_no_comma (after p) Ha). reflexivity.
Qed.

Lemma cors_origin_reads_list_witness :
  cors_origin (Some "http://localhost:3000, http://localhost:5173 ,https://yourapp.com")
  = ["http://localhost:3000"; "http://localhost:5173"; "https://yourapp.com"].
Proof.
  apply (@cors_origin_reads_list
           [ mkPadded "" "http://localhost:3000" "";
             mkPadded " " "http://localhost:5173" " ";
             mkPadded "" "https://yourapp.com" "" ]).
  - discriminate.
  - repeat constructor; cbn; intros c H; inversion H; reflexivity.
Defined.
